(** * pyrenew: latent hospital admissions and the hospital admissions model

    A shallow embedding of

      - [pyrenew/latent/hospitaladmissions.py]  (class [HospitalAdmissions])
      - [pyrenew/model/admissionsmodel.py]      (class [HospitalAdmissionsModel])

    Conventions of the embedding.

      - Floating point numbers are idealised as exact rationals ([Q]); two
        series are compared entry by entry with [Qeq].  The observed data may
        hold the not-a-number marker, so its entries have their own type
        [fnum].
      - An [ArrayLike] is a [value]: a 0-d scalar or a 1-d array.  The jax.numpy
        operations the code calls ([*], [jnp.convolve], slicing, [len]) are
        modelled with their broadcasting rules and with the errors they raise.
      - A [sample] method runs in the monad [M]: it may raise a Python exception
        and it appends to a log every call of a collaborator's [sample] and
        every [numpyro.deterministic] registration. *)

From Stdlib Require Import Ascii String Bool List ZArith QArith Lia.
Import ListNotations.

Local Open Scope string_scope.
Local Open Scope list_scope.
Local Open Scope nat_scope.

(** ** Python values *)

Inductive exn : Type :=
| ValueError (msg : string)
| AssertionError
| AttributeError
| TypeError
| IndexError
| BroadcastError.  (* incompatible shapes for broadcasting *)

Inductive value : Type :=
| Scalar (q : Q)
| Array (xs : list Q).

(** Entries of the observed data: a number or [jnp.nan]. *)
Inductive fnum : Type :=
| NaN
| Fin (q : Q).

Definition kwargs : Type := list (string * value).

(** ** The jax.numpy operations used by the code *)

Module Numpy.

Fixpoint map2 (f : Q -> Q -> Q) (xs ys : list Q) : list Q :=
  match xs, ys with
  | x :: xs', y :: ys' => f x y :: map2 f xs' ys'
  | _, _ => []
  end.

(** [a * b] with broadcasting: a scalar or a one-entry array is stretched to
    the other operand's shape, two arrays of one length are multiplied entry
    by entry, anything else is a shape error. *)
Definition multiply (a b : value) : exn + value :=
  match a, b with
  | Scalar x, Scalar y => inr (Scalar (x * y)%Q)
  | Scalar x, Array ys => inr (Array (map (fun y => x * y)%Q ys))
  | Array xs, Scalar y => inr (Array (map (fun x => x * y)%Q xs))
  | Array xs, Array ys =>
      if length xs =? length ys then inr (Array (map2 Qmult xs ys))
      else match xs, ys with
           | [x], _ => inr (Array (map (fun y => x * y)%Q ys))
           | _, [y] => inr (Array (map (fun x => x * y)%Q xs))
           | _, _ => inl BroadcastError
           end
  end.

Definition Qsum (l : list Q) : Q := fold_right Qplus 0%Q l.

(** Entry [k] of the discrete convolution: sum over tau of v(tau) a(k - tau). *)
Definition conv_at (a v : list Q) (k : nat) : Q :=
  Qsum (map (fun tau => nth tau v 0 * nth (k - tau) a 0)%Q (seq 0 (S k))).

Definition conv_full (a v : list Q) : list Q :=
  map (conv_at a v) (seq 0 (length a + length v - 1)).

(** [jnp.convolve(a, v, mode="full")]: 1-d, non-empty operands only. *)
Definition convolve (a v : value) : exn + value :=
  match a, v with
  | Array xs, Array ys =>
      match xs, ys with
      | [], _ | _, [] => inl (ValueError "convolve: inputs cannot be empty")
      | _, _ => inr (Array (conv_full xs ys))
      end
  | _, _ => inl (ValueError "convolve() only support 1-dimensional inputs.")
  end.

(** [a.shape[0]] *)
Definition shape0 (a : value) : exn + nat :=
  match a with
  | Array xs => inr (length xs)
  | Scalar _ => inl IndexError
  end.

(** [a[:n]] for [n >= 0] *)
Definition take (n : nat) (a : value) : exn + value :=
  match a with
  | Array xs => inr (Array (firstn n xs))
  | Scalar _ => inl IndexError
  end.

(** [xs[k:]] on a sequence, for any Python integer [k]: a negative [k]
    counts from the end, and both ends are clamped. *)
Definition slice_from {A : Type} (k : Z) (xs : list A) : list A :=
  if (0 <=? k)%Z then skipn (Z.to_nat k) xs
  else skipn (length xs - Z.to_nat (- k)) xs.

End Numpy.

(** ** Exceptions and the call log *)

Inductive event : Type :=
| SampleCall (attr : string)                 (* self.<attr>.sample(...) *)
| Deterministic (name : string) (v : value)  (* numpyro.deterministic *)
| RenewalSampleCall (n_timepoints padding : Z)
| ObsProcessCall (mu : list Q) (obs : option (list fnum)).

Definition trace : Type := list event.

Definition M (A : Type) : Type := trace -> (exn + A) * trace.

Definition ret {A} (a : A) : M A := fun tr => (inr a, tr).

Definition raise {A} (e : exn) : M A := fun tr => (inl e, tr).

Definition bind {A B} (c : M A) (k : A -> M B) : M B :=
  fun tr =>
    match c tr with
    | (inr a, tr') => k a tr'
    | (inl e, tr') => (inl e, tr')
    end.

Definition lift {A} (r : exn + A) : M A := fun tr => (r, tr).

Definition emit (e : event) : M unit := fun tr => (inr tt, tr ++ [e]).

Notation "x <- c ;; k" := (bind c (fun x => k))
  (at level 61, c at next level, right associativity).
Notation "c ;;; k" := (bind c (fun _ => k))
  (at level 61, right associativity).

(** ** Objects handed to the constructors *)

Inductive pyobj : Type :=
| PyNone
| RandomVariableObj (smp : kwargs -> exn + value)  (* a RandomVariable; [smp] is
                                                      element 0 of its sample *)
| DuckObj (smp : kwargs -> exn + value)   (* has [sample], is no RandomVariable *)
| PlainObj.                               (* any other object *)

Definition isinstance_RandomVariable (o : pyobj) : bool :=
  match o with
  | RandomVariableObj _ => true
  | _ => false
  end.

(** [o.sample( **kwargs )[0]], reached through attribute [attr] of [self]. *)
Definition call_sample (attr : string) (o : pyobj) (kw : kwargs) : M value :=
  match o with
  | RandomVariableObj smp | DuckObj smp =>
      emit (SampleCall attr) ;;; lift (smp kw)
  | PyNone | PlainObj => raise AttributeError
  end.

(** Modelled from the spec: [pyrenew.deterministic.DeterministicVariable] is not
    among the sources.  The spec calls it the "deterministic constant" variant
    of the stochastic-process capability, used as the "default: constant 1". *)
Definition DeterministicVariable (v : value) (name : string) : pyobj :=
  RandomVariableObj (fun _ => inr v).

(** ** pyrenew/latent/hospitaladmissions.py *)

Record HospitalAdmissionsSample : Type := {
  infection_hosp_rate : option value;
  latent_hospital_admissions : option value
}.

Module HospitalAdmissions.

Record t : Type := {
  latent_hospital_admissions_varname : string;
  infect_hosp_rate_rv : pyobj;
  day_of_week_effect_rv : pyobj;
  hosp_report_prob_rv : pyobj;
  infection_to_admission_interval_rv : pyobj
}.

Definition py_assert (b : bool) : exn + unit :=
  if b then inr tt else inl AssertionError.

Definition validate (infect_hosp_rate_rv day_of_week_effect_rv
                     hosp_report_prob_rv : pyobj) : exn + unit :=
  match py_assert (isinstance_RandomVariable infect_hosp_rate_rv) with
  | inl e => inl e
  | inr _ =>
      match py_assert (isinstance_RandomVariable day_of_week_effect_rv) with
      | inl e => inl e
      | inr _ => py_assert (isinstance_RandomVariable hosp_report_prob_rv)
      end
  end.

Definition default_varname : string := "latent_hospital_admissions".

Definition init (infection_to_admission_interval_rv infect_hosp_rate_rv : pyobj)
                (varname : string)
                (day_of_week_effect_rv hosp_report_prob_rv : pyobj)
  : exn + t :=
  let day_of_week_effect_rv :=
    match day_of_week_effect_rv with
    | PyNone => DeterministicVariable (Scalar 1) "weekday_effect"
    | o => o
    end in
  let hosp_report_prob_rv :=
    match hosp_report_prob_rv with
    | PyNone => DeterministicVariable (Scalar 1) "hosp_report_prob"
    | o => o
    end in
  match validate infect_hosp_rate_rv day_of_week_effect_rv
                 hosp_report_prob_rv with
  | inl e => inl e
  | inr _ =>
      inr {| latent_hospital_admissions_varname := varname;
             infect_hosp_rate_rv := infect_hosp_rate_rv;
             day_of_week_effect_rv := day_of_week_effect_rv;
             hosp_report_prob_rv := hosp_report_prob_rv;
             infection_to_admission_interval_rv :=
               infection_to_admission_interval_rv |}
  end.

Definition sample (self : t) (latent_infections : value) (kw : kwargs)
  : M HospitalAdmissionsSample :=
  infection_hosp_rate <-
    call_sample "infect_hosp_rate_rv" (infect_hosp_rate_rv self) kw ;;
  infection_hosp_rate_t <-
    lift (Numpy.multiply infection_hosp_rate latent_infections) ;;
  interval <-
    call_sample "infection_to_admission_interval_rv"
                (infection_to_admission_interval_rv self) kw ;;
  full <- lift (Numpy.convolve infection_hosp_rate_t interval) ;;
  n <- lift (Numpy.shape0 infection_hosp_rate_t) ;;
  latent <- lift (Numpy.take n full) ;;
  dow <- call_sample "day_of_week_effect_rv" (day_of_week_effect_rv self) kw ;;
  latent <- lift (Numpy.multiply latent dow) ;;
  prob <- call_sample "hosp_report_prob_rv" (hosp_report_prob_rv self) kw ;;
  latent <- lift (Numpy.multiply latent prob) ;;
  emit (Deterministic (latent_hospital_admissions_varname self) latent) ;;;
  ret {| infection_hosp_rate := Some infection_hosp_rate;
         latent_hospital_admissions := Some latent |}.

End HospitalAdmissions.

(** ** pyrenew/model/admissionsmodel.py *)

Record HospModelSample : Type := {
  Rt : option value;
  latent_infections : option value;
  hm_infection_hosp_rate : option value;
  latent_hosp_admissions : option value;
  observed_hosp_admissions : option (list fnum)
}.

(** What the inner renewal model's [sample] returns: an object with the fields
    [Rt] and [latent_infections]. *)
Record RtInfectionsRenewalSample : Type := {
  basic_Rt : value;
  basic_latent_infections : value
}.

(** Modelled from the spec: [pyrenew.arrayutils.pad_x_to_match_y] is not among
    the sources.  The spec: "left-pad [data_observed_hosp_admissions] with
    not-a-number markers so its length matches [latent_hosp_admissions]", "a
    pure function [pad_to_length(series, target_len, fill, direction)]
    returning a new sequence".  Only the direction "start" is used.  The spec
    does not say what happens when [x] is the longer one; no marker is added
    here then. *)
Definition pad_x_to_match_y {A B : Type} (x : list A) (y : list B) (fill : A)
  : list A :=
  repeat fill (length y - length x) ++ x.

Module HospitalAdmissionsModel.

(** The collaborators are kept as their [sample] operations.  The inner
    renewal model is always called with [data_observed_infections=None]. *)
Record t : Type := {
  basic_renewal : Z -> Z -> kwargs -> exn + RtInfectionsRenewalSample;
  latent_hosp_admissions_rv : value -> kwargs -> M HospitalAdmissionsSample;
  hosp_admission_obs_process_rv :
    option (list Q -> option (list fnum) -> kwargs -> exn + list fnum)
}.

Definition msg_neither : string :=
  "Either n_timepoints_to_simulate or data_observed_hosp_admissions must be passed.".

Definition msg_both : string :=
  "Cannot pass both n_timepoints_to_simulate and data_observed_hosp_admissions.".

Definition basic_renewal_sample (self : t) (n_timepoints padding : Z)
                                (kw : kwargs) : M RtInfectionsRenewalSample :=
  emit (RenewalSampleCall n_timepoints padding) ;;;
  lift (basic_renewal self n_timepoints padding kw).

Definition sample_latent_hosp_admissions (self : t) (latent_infections : value)
                                         (kw : kwargs)
  : M HospitalAdmissionsSample :=
  latent_hosp_admissions_rv self latent_infections kw.

(** With no observation process the attribute access on [None] fails. *)
Definition sample_admissions_process (self : t)
    (observed_hosp_admissions_mean : list Q)
    (data_observed_hosp_admissions : option (list fnum)) (kw : kwargs)
  : M (list fnum) :=
  match hosp_admission_obs_process_rv self with
  | None => raise AttributeError
  | Some obs_process =>
      emit (ObsProcessCall observed_hosp_admissions_mean
                           data_observed_hosp_admissions) ;;;
      lift (obs_process observed_hosp_admissions_mean
                        data_observed_hosp_admissions kw)
  end.

(** [len(latent_hosp_admissions)]: defined on a 1-d array only. *)
Definition as_series (v : option value) : exn + list Q :=
  match v with
  | Some (Array xs) => inr xs
  | _ => inl TypeError
  end.

Definition sample (self : t) (n_timepoints_to_simulate : option Z)
                  (data_observed_hosp_admissions : option (list fnum))
                  (padding : Z) (kw : kwargs) : M HospModelSample :=
  n_timepoints <-
    match n_timepoints_to_simulate, data_observed_hosp_admissions with
    | None, None => raise (ValueError msg_neither)
    | Some _, Some _ => raise (ValueError msg_both)
    | None, Some data => ret (Z.of_nat (length data))
    | Some n, None => ret n
    end ;;
  basic_model <- basic_renewal_sample self n_timepoints padding kw ;;
  hosp <- sample_latent_hosp_admissions self
            (basic_latent_infections basic_model) kw ;;
  latent <- lift (as_series (latent_hospital_admissions hosp)) ;;
  let i0_size := (Z.of_nat (length latent) - n_timepoints)%Z in
  observed <-
    match hosp_admission_obs_process_rv self with
    | None => ret None
    | Some _ =>
        match data_observed_hosp_admissions with
        | None =>
            o <- sample_admissions_process self latent None kw ;;
            ret (Some o)
        | Some data =>
            let data := pad_x_to_match_y data latent NaN in
            o <- sample_admissions_process self
                   (Numpy.slice_from (i0_size + padding) latent)
                   (Some (Numpy.slice_from (i0_size + padding) data)) kw ;;
            ret (Some o)
        end
    end ;;
  ret {| Rt := Some (basic_Rt basic_model);
         latent_infections := Some (basic_latent_infections basic_model);
         hm_infection_hosp_rate := infection_hosp_rate hosp;
         latent_hosp_admissions := latent_hospital_admissions hosp;
         observed_hosp_admissions := observed |}.

End HospitalAdmissionsModel.

(** ** Notions used in the statements *)

(** Element 0 of [o.sample( **kwargs )], without the log. *)
Definition sampled (o : pyobj) (kw : kwargs) : exn + value :=
  match o with
  | RandomVariableObj smp | DuckObj smp => smp kw
  | PyNone | PlainObj => inl AttributeError
  end.

(** A RandomVariable whose sample is the constant [v]. *)
Definition const_rv (v : value) : pyobj := RandomVariableObj (fun _ => inr v).

Definition and_then {A B} (r : exn + A) (k : A -> exn + B) : exn + B :=
  match r with
  | inl e => inl e
  | inr a => k a
  end.

(** The arithmetic of [HospitalAdmissions.sample] on the four sampled values
    [r] (rate), [d] (delay), [w] (weekday effect), [p] (reporting
    probability). *)
Definition admissions_of (r d w p latent_infections : value) : exn + value :=
  and_then (Numpy.multiply r latent_infections) (fun t =>
  and_then (Numpy.convolve t d) (fun full =>
  and_then (Numpy.shape0 t) (fun n =>
  and_then (Numpy.take n full) (fun l =>
  and_then (Numpy.multiply l w) (fun l =>
  Numpy.multiply l p))))).

(** The log entries of one successful [HospitalAdmissions.sample]. *)
Definition sample_events (name : string) (adm : value) : trace :=
  [ SampleCall "infect_hosp_rate_rv";
    SampleCall "infection_to_admission_interval_rv";
    SampleCall "day_of_week_effect_rv";
    SampleCall "hosp_report_prob_rv";
    Deterministic name adm ].

(** A scalar or a one-entry array: broadcasting against it keeps the other
    operand's shape. *)
Definition unit_shape (v : value) : Prop :=
  match v with
  | Scalar _ => True
  | Array xs => length xs = 1
  end.

(** The constant [c], as a scalar or as a one-entry array. *)
Definition is_const (c : Q) (v : value) : Prop :=
  v = Scalar c \/ v = Array [c].

(** [y] is [c] times [x], entry by entry. *)
Definition scaled (c : Q) (v v' : value) : Prop :=
  match v, v' with
  | Scalar x, Scalar y => (y == c * x)%Q
  | Array xs, Array ys => Forall2 (fun x y => y == c * x)%Q xs ys
  | _, _ => False
  end.

(** Two outcomes that fail alike or succeed with [scaled] values. *)
Definition scaled_result (c : Q) (r r' : exn + value) : Prop :=
  match r, r' with
  | inl e, inl e' => e = e'
  | inr v, inr v' => scaled c v v'
  | _, _ => False
  end.

Definition scale (c : Q) (v : value) : value :=
  match v with
  | Scalar x => Scalar (c * x)
  | Array xs => Array (map (Qmult c) xs)
  end.

(** [isinstance(o, RandomVariable)] after the [None] default was filled in. *)
Definition conforms_or_none (o : pyobj) : bool :=
  match o with
  | PyNone => true
  | _ => isinstance_RandomVariable o
  end.

Definition or_default (name : string) (o : pyobj) : pyobj :=
  match o with
  | PyNone => DeterministicVariable (Scalar 1) name
  | _ => o
  end.

(** A small instance for the examples: a latent admissions component with
    rate 0.1, zero delay and unit effects, inside a model whose renewal
    collaborator returns [i0] seeding entries followed by [n_timepoints]
    entries, with or without an observation process (which hands back the
    data when there is some). *)
Definition example_latent : HospitalAdmissions.t :=
  {| HospitalAdmissions.latent_hospital_admissions_varname :=
       HospitalAdmissions.default_varname;
     HospitalAdmissions.infect_hosp_rate_rv := const_rv (Scalar (1#10));
     HospitalAdmissions.day_of_week_effect_rv := const_rv (Scalar 1);
     HospitalAdmissions.hosp_report_prob_rv := const_rv (Scalar 1);
     HospitalAdmissions.infection_to_admission_interval_rv :=
       const_rv (Array [1%Q]) |}.

Definition example_model (i0 : nat) (with_obs : bool)
  : HospitalAdmissionsModel.t :=
  {| HospitalAdmissionsModel.basic_renewal := fun n _ _ =>
       inr {| basic_Rt := Scalar 1;
              basic_latent_infections :=
                Array (repeat 100%Q (i0 + Z.to_nat n)) |};
     HospitalAdmissionsModel.latent_hosp_admissions_rv :=
       HospitalAdmissions.sample example_latent;
     HospitalAdmissionsModel.hosp_admission_obs_process_rv :=
       if with_obs
       then Some (fun mu obs _ =>
                    inr match obs with
                        | Some data => data
                        | None => map Fin mu
                        end)
       else None |}.

(** ** Notions used in the further properties *)

Definition has_sample (o : pyobj) : bool :=
  match o with
  | RandomVariableObj _ | DuckObj _ => true
  | PyNone | PlainObj => false
  end.

(** The four collaborator calls of [HospitalAdmissions.sample], in order. *)
Definition sample_calls : trace :=
  [ SampleCall "infect_hosp_rate_rv";
    SampleCall "infection_to_admission_interval_rv";
    SampleCall "day_of_week_effect_rv";
    SampleCall "hosp_report_prob_rv" ].

(** Entry [i] of a value once broadcasting has stretched it: a scalar or a
    one-entry array gives its only number at every index. *)
Definition bget (v : value) (i : nat) : Q :=
  match v with
  | Scalar x => x
  | Array [x] => x
  | Array xs => nth i xs 0%Q
  end.

(** Broadcasting does not stretch a one-entry infection series: the three
    multipliers are then scalars or one-entry arrays. *)
Definition no_stretch (li : list Q) (r w p : value) : Prop :=
  length li = 1 -> unit_shape r /\ unit_shape w /\ unit_shape p.

Definition nonneg (v : value) : Prop :=
  match v with
  | Scalar x => (0 <= x)%Q
  | Array xs => Forall (fun x => 0 <= x)%Q xs
  end.

(** The sum of the class docstring,
    [sum over tau = 0 .. T_d of d(tau) I(t - tau)], with [T_d] the last index
    of [d] and [I] taken as 0 before time 0. *)
Definition renewal_sum (d : list Q) (I : nat -> Q) (t : nat) : Q :=
  Numpy.Qsum
    (map (fun tau => if (tau <=? t)%nat then nth tau d 0 * I (t - tau)%nat else 0)%Q
         (seq 0 (length d))).

(** The delay distribution that puts all its mass on lag [k]. *)
Definition lag_delay (k : nat) : list Q := repeat 0%Q k ++ [1%Q].

(** Two values of one shape: both 0-d, or 1-d arrays of one length. *)
Definition same_shape (v v' : value) : Prop :=
  match v, v' with
  | Scalar _, Scalar _ => True
  | Array xs, Array ys => length xs = length ys
  | _, _ => False
  end.

(** Two outcomes that raise the same exception or return values of one
    shape. *)
Definition shape_result (r r' : exn + value) : Prop :=
  match r, r' with
  | inl e, inl e' => e = e'
  | inr v, inr v' => same_shape v v'
  | _, _ => False
  end.

(** The time extent [sample] hands to the renewal model: the explicit number
    of time points, or the length of the data; [None] when both or neither
    are given. *)
Definition resolve_n_timepoints (n : option Z) (data : option (list fnum))
  : option Z :=
  match n, data with
  | Some n, None => Some n
  | None, Some d => Some (Z.of_nat (length d))
  | _, _ => None
  end.

(** [__repr__] of the two result containers.  The text of a field inside an
    f-string is Python's formatting of the value; it is taken as the
    parameters [fmt] and [fmt_obs]. *)
Definition HospitalAdmissionsSample_repr (fmt : option value -> string)
                                         (s : HospitalAdmissionsSample)
  : string :=
  ("HospitalAdmissionsSample(infection_hosp_rate="
   ++ fmt (infection_hosp_rate s)
   ++ ", latent_hospital_admissions="
   ++ fmt (latent_hospital_admissions s) ++ ")")%string.

Definition HospModelSample_repr (fmt : option value -> string)
                                (fmt_obs : option (list fnum) -> string)
                                (s : HospModelSample) : string :=
  ("HospModelSample(Rt=" ++ fmt (Rt s) ++ ", "
   ++ "latent_infections=" ++ fmt (latent_infections s) ++ ", "
   ++ "infection_hosp_rate=" ++ fmt (hm_infection_hosp_rate s) ++ ", "
   ++ "latent_hosp_admissions=" ++ fmt (latent_hosp_admissions s) ++ ", "
   ++ "observed_hosp_admissions="
   ++ fmt_obs (observed_hosp_admissions s))%string.

(** Opening minus closing round brackets of a text. *)
Fixpoint paren_balance (s : string) : Z :=
  match s with
  | EmptyString => 0%Z
  | String c s' =>
      ((if Ascii.eqb c "("%char then 1
        else if Ascii.eqb c ")"%char then -1 else 0)
       + paren_balance s')%Z
  end.

(** * Properties *)

(** ** The monad *)

Lemma bind_inr {A B} (c : M A) (k : A -> M B) tr b tr' :
  bind c k tr = (inr b, tr') ->
  exists a tr1, c tr = (inr a, tr1) /\ k a tr1 = (inr b, tr').
Proof.
  unfold bind. destruct (c tr) as [[e | a] tr1]; intros H.
  - discriminate.
  - exists a, tr1. split; [reflexivity | exact H].
Qed.

Lemma bind_run {A B} (c : M A) (k : A -> M B) tr a tr1 :
  c tr = (inr a, tr1) -> bind c k tr = k a tr1.
Proof. unfold bind. intros ->. reflexivity. Qed.

Lemma bind_lift_run {A B} (r : exn + A) (k : A -> M B) tr a :
  r = inr a -> bind (lift r) k tr = k a tr.
Proof. intros ->. reflexivity. Qed.

Lemma lift_inr {A} (r : exn + A) tr a tr' :
  lift r tr = (inr a, tr') -> r = inr a /\ tr' = tr.
Proof. unfold lift. intros H. inversion H. split; reflexivity. Qed.

Lemma call_sample_inr attr o kw tr v tr' :
  call_sample attr o kw tr = (inr v, tr') ->
  sampled o kw = inr v /\ tr' = tr ++ [SampleCall attr].
Proof.
  destruct o as [| smp | smp |]; simpl; try discriminate;
    unfold bind, emit, lift; intros H; inversion H; split; reflexivity.
Qed.

Lemma call_sample_run attr o kw tr v :
  sampled o kw = inr v ->
  call_sample attr o kw tr = (inr v, tr ++ [SampleCall attr]).
Proof.
  destruct o as [| smp | smp |]; simpl; try discriminate;
    unfold bind, emit, lift; intros ->; reflexivity.
Qed.

Lemma and_then_run {A B} (r : exn + A) (k : A -> exn + B) a :
  r = inr a -> and_then r k = k a.
Proof. intros ->. reflexivity. Qed.

Lemma and_then_inr {A B} (r : exn + A) (k : A -> exn + B) b :
  and_then r k = inr b -> exists a, r = inr a /\ k a = inr b.
Proof.
  destruct r as [e | a]; simpl; intros H; [discriminate |].
  exists a. split; [reflexivity | exact H].
Qed.

(** ** [HospitalAdmissions.sample] and its arithmetic *)

Lemma sample_run self li kw tr r d w p adm :
  sampled (HospitalAdmissions.infect_hosp_rate_rv self) kw = inr r ->
  sampled (HospitalAdmissions.infection_to_admission_interval_rv self) kw
    = inr d ->
  sampled (HospitalAdmissions.day_of_week_effect_rv self) kw = inr w ->
  sampled (HospitalAdmissions.hosp_report_prob_rv self) kw = inr p ->
  admissions_of r d w p li = inr adm ->
  HospitalAdmissions.sample self li kw tr
  = (inr {| infection_hosp_rate := Some r;
            latent_hospital_admissions := Some adm |},
     tr ++ sample_events
             (HospitalAdmissions.latent_hospital_admissions_varname self) adm).
Proof.
  intros Hr Hd Hw Hp Hadm. unfold admissions_of in Hadm.
  apply and_then_inr in Hadm as (t & Ht & Hadm).
  apply and_then_inr in Hadm as (full & Hfull & Hadm).
  apply and_then_inr in Hadm as (n & Hn & Hadm).
  apply and_then_inr in Hadm as (l1 & Hl1 & Hadm).
  apply and_then_inr in Hadm as (l2 & Hl2 & Hadm).
  unfold HospitalAdmissions.sample.
  rewrite (bind_run _ _ _ _ _ (call_sample_run _ _ _ _ _ Hr)).
  rewrite (bind_lift_run _ _ _ _ Ht).
  rewrite (bind_run _ _ _ _ _ (call_sample_run _ _ _ _ _ Hd)).
  rewrite (bind_lift_run _ _ _ _ Hfull), (bind_lift_run _ _ _ _ Hn),
    (bind_lift_run _ _ _ _ Hl1).
  rewrite (bind_run _ _ _ _ _ (call_sample_run _ _ _ _ _ Hw)).
  rewrite (bind_lift_run _ _ _ _ Hl2).
  rewrite (bind_run _ _ _ _ _ (call_sample_run _ _ _ _ _ Hp)).
  rewrite (bind_lift_run _ _ _ _ Hadm).
  unfold bind, emit, ret, sample_events.
  repeat rewrite <- app_assoc. reflexivity.
Qed.

Lemma sample_inv self li kw tr s tr' :
  HospitalAdmissions.sample self li kw tr = (inr s, tr') ->
  exists r d w p adm,
    sampled (HospitalAdmissions.infect_hosp_rate_rv self) kw = inr r /\
    sampled (HospitalAdmissions.infection_to_admission_interval_rv self) kw
      = inr d /\
    sampled (HospitalAdmissions.day_of_week_effect_rv self) kw = inr w /\
    sampled (HospitalAdmissions.hosp_report_prob_rv self) kw = inr p /\
    admissions_of r d w p li = inr adm /\
    s = {| infection_hosp_rate := Some r;
           latent_hospital_admissions := Some adm |}.
Proof.
  unfold HospitalAdmissions.sample. intros H.
  apply bind_inr in H as (r & tr1 & Hr & H).
  apply call_sample_inr in Hr as [Hr _].
  apply bind_inr in H as (t & tr2 & Ht & H). apply lift_inr in Ht as [Ht _].
  apply bind_inr in H as (d & tr3 & Hd & H).
  apply call_sample_inr in Hd as [Hd _].
  apply bind_inr in H as (full & tr4 & Hf & H). apply lift_inr in Hf as [Hf _].
  apply bind_inr in H as (n & tr5 & Hn & H). apply lift_inr in Hn as [Hn _].
  apply bind_inr in H as (l1 & tr6 & Hl1 & H).
  apply lift_inr in Hl1 as [Hl1 _].
  apply bind_inr in H as (w & tr7 & Hw & H).
  apply call_sample_inr in Hw as [Hw _].
  apply bind_inr in H as (l2 & tr8 & Hl2 & H).
  apply lift_inr in Hl2 as [Hl2 _].
  apply bind_inr in H as (p & tr9 & Hp & H).
  apply call_sample_inr in Hp as [Hp _].
  apply bind_inr in H as (l3 & tr10 & Hl3 & H).
  apply lift_inr in Hl3 as [Hl3 _].
  apply bind_inr in H as (u & tr11 & _ & H).
  unfold ret in H. inversion H; subst s tr'.
  exists r, d, w, p, l3. repeat split; try assumption.
  unfold admissions_of. rewrite Ht. simpl. rewrite Hf. simpl.
  rewrite Hn. simpl. rewrite Hl1. simpl. rewrite Hl2. simpl. exact Hl3.
Qed.

(** ** Lists of rationals *)

Lemma length_map2 f xs ys :
  length (Numpy.map2 f xs ys) = Nat.min (length xs) (length ys).
Proof.
  revert ys. induction xs as [| x xs IH]; intros [| y ys]; simpl; auto.
Qed.

Lemma Qsum_map_ext (f g : nat -> Q) (c : Q) (l : list nat) :
  (forall i, In i l -> g i == c * f i)%Q ->
  (Numpy.Qsum (map g l) == c * Numpy.Qsum (map f l))%Q.
Proof.
  induction l as [| i l IH]; intros H; simpl.
  - ring.
  - rewrite (H i (or_introl eq_refl)), IH.
    + ring.
    + intros j Hj. apply H. right. exact Hj.
Qed.

Lemma Qsum_map_zero (f : nat -> Q) (l : list nat) :
  (forall i, In i l -> f i == 0)%Q -> (Numpy.Qsum (map f l) == 0)%Q.
Proof.
  induction l as [| i l IH]; intros H; simpl.
  - reflexivity.
  - rewrite (H i (or_introl eq_refl)), IH.
    + ring.
    + intros j Hj. apply H. right. exact Hj.
Qed.

Lemma Forall2_map_seq (R : Q -> Q -> Prop) (f : nat -> Q) (l : list Q) :
  forall start,
    (forall i, i < length l -> R (f (start + i)) (nth i l 0%Q)) ->
    Forall2 R (map f (seq start (length l))) l.
Proof.
  induction l as [| x l IH]; intros start H; simpl.
  - constructor.
  - constructor.
    + specialize (H 0 (Nat.lt_0_succ _)). rewrite Nat.add_0_r in H. exact H.
    + apply IH. intros i Hi. replace (S start + i) with (start + S i) by lia.
      apply (H (S i)). simpl. lia.
Qed.

Lemma Forall2_map_same (R : Q -> Q -> Prop) (f g : nat -> Q) (l : list nat) :
  (forall i, In i l -> R (f i) (g i)) -> Forall2 R (map f l) (map g l).
Proof.
  induction l as [| i l IH]; intros H; simpl; constructor.
  - apply H. left. reflexivity.
  - apply IH. intros j Hj. apply H. right. exact Hj.
Qed.

Lemma Forall2_firstn {A B} (R : A -> B -> Prop) n xs ys :
  Forall2 R xs ys -> Forall2 R (firstn n xs) (firstn n ys).
Proof.
  intros H. revert n. induction H as [| x y xs ys Hxy H IH]; intros [| n];
    simpl; constructor; auto.
Qed.

Lemma firstn_seq n : forall start len,
  firstn n (seq start len) = seq start (Nat.min n len).
Proof.
  induction n as [| n IH]; intros start [| len]; simpl; try reflexivity.
  rewrite IH. reflexivity.
Qed.

(** ** The convolution *)

Lemma length_conv_full a v :
  length (Numpy.conv_full a v) = length a + length v - 1.
Proof. unfold Numpy.conv_full. rewrite length_map, length_seq. reflexivity. Qed.

Lemma firstn_conv_full a v :
  v <> [] ->
  firstn (length a) (Numpy.conv_full a v)
  = map (Numpy.conv_at a v) (seq 0 (length a)).
Proof.
  intros Hv. unfold Numpy.conv_full. rewrite firstn_map, firstn_seq.
  replace (Nat.min (length a) (length a + length v - 1)) with (length a).
  - reflexivity.
  - destruct v; [contradiction | simpl; lia].
Qed.

Lemma length_firstn_conv_full a v :
  v <> [] -> length (firstn (length a) (Numpy.conv_full a v)) = length a.
Proof.
  intros Hv. rewrite (firstn_conv_full a v Hv), length_map, length_seq.
  reflexivity.
Qed.

(** Convolving with the zero-delay distribution [1] changes nothing. *)
Lemma conv_at_unit a k : (Numpy.conv_at a [1]%Q k == nth k a 0)%Q.
Proof.
  unfold Numpy.conv_at. rewrite <- cons_seq. simpl map. simpl Numpy.Qsum.
  rewrite Qsum_map_zero.
  - rewrite Nat.sub_0_r. ring.
  - intros i Hi. apply in_seq in Hi. destruct i as [| i]; [lia |].
    simpl. destruct i; ring.
Qed.

Lemma firstn_conv_full_unit a :
  Forall2 Qeq (firstn (length a) (Numpy.conv_full a [1]%Q)) a.
Proof.
  rewrite firstn_conv_full by discriminate.
  apply Forall2_map_seq. intros i _. simpl. apply conv_at_unit.
Qed.

Lemma convolve_inr a d full :
  Numpy.convolve a d = inr full ->
  exists xs ys, a = Array xs /\ d = Array ys /\ xs <> [] /\ ys <> [] /\
                full = Array (Numpy.conv_full xs ys).
Proof.
  destruct a as [q | xs], d as [q' | ys]; simpl; try discriminate.
  destruct xs as [| x xs]; [discriminate |].
  destruct ys as [| y ys]; [discriminate |].
  intros H. inversion H. exists (x :: xs), (y :: ys).
  repeat split; discriminate.
Qed.

(** C1.  Round trip: a component built with a delay process sampling
    [0.5, 0.5], a rate process sampling the constant 0.1 and weekday and
    reporting processes sampling the constant 1 is accepted by the
    constructor; its [sample] on the infections [100, 100, 100] returns the
    rate 0.1 and the admissions [5, 10, 10], the first three entries of the
    full convolution [5, 10, 10, 5]. *)
Theorem sample_round_trip :
  exists self,
    HospitalAdmissions.init (const_rv (Array [1#2; 1#2]%Q))
                            (const_rv (Scalar (1#10)))
                            HospitalAdmissions.default_varname
                            (const_rv (Scalar 1)) (const_rv (Scalar 1))
    = inr self /\
    Forall2 Qeq
      (Numpy.conv_full (map (Qmult (1#10)) [100; 100; 100]%Q) [1#2; 1#2]%Q)
      [5; 10; 10; 5]%Q /\
    forall kw tr, exists adm tr',
      HospitalAdmissions.sample self (Array [100; 100; 100]%Q) kw tr
      = (inr {| infection_hosp_rate := Some (Scalar (1#10));
                latent_hospital_admissions := Some (Array adm) |}, tr') /\
      Forall2 Qeq adm [5; 10; 10]%Q.
Proof.
  eexists. split; [reflexivity |]. split.
  - repeat (constructor; [reflexivity |]). constructor.
  - intros kw tr. eexists. eexists. split.
    + eapply sample_run; reflexivity.
    + repeat (constructor; [reflexivity |]). constructor.
Qed.

(** C4.  [HospitalAdmissionsModel.sample] raises a value error when both
    [n_timepoints_to_simulate] and [data_observed_hosp_admissions] are given
    and when neither is; the log is left as it was, so no collaborator was
    sampled before the error. *)
Theorem sample_time_extent_errors :
  forall self n data padding kw tr,
    HospitalAdmissionsModel.sample self (Some n) (Some data) padding kw tr
    = (inl (ValueError HospitalAdmissionsModel.msg_both), tr) /\
    HospitalAdmissionsModel.sample self None None padding kw tr
    = (inl (ValueError HospitalAdmissionsModel.msg_neither), tr).
Proof. intros. split; reflexivity. Qed.

(** C5 as stated fails: a delay handle that is no RandomVariable (here an
    object without any [sample]) is accepted by the constructor, and the
    failure only shows when [sample] is called. *)
Lemma init_accepts_unchecked_delay :
  exists self,
    HospitalAdmissions.init PlainObj (const_rv (Scalar (1#10)))
                            HospitalAdmissions.default_varname PyNone PyNone
    = inr self /\
    isinstance_RandomVariable
      (HospitalAdmissions.infection_to_admission_interval_rv self) = false /\
    fst (HospitalAdmissions.sample self (Array [100]%Q) [] [])
    = inl AttributeError.
Proof. eexists. split; [reflexivity |]. split; reflexivity. Qed.

(** C5, amended.  The constructor checks three handles: the rate handle and,
    once a missing one is replaced by the constant 1, the weekday and
    reporting handles.  It raises an assertion failure exactly when one of
    the three is no RandomVariable; the delay handle is stored unchecked. *)
Theorem init_validates_three_handles :
  forall delay rate name dow prob,
    HospitalAdmissions.init delay rate name dow prob
    = if isinstance_RandomVariable rate && conforms_or_none dow
         && conforms_or_none prob
      then inr {| HospitalAdmissions.latent_hospital_admissions_varname := name;
                  HospitalAdmissions.infect_hosp_rate_rv := rate;
                  HospitalAdmissions.day_of_week_effect_rv :=
                    or_default "weekday_effect" dow;
                  HospitalAdmissions.hosp_report_prob_rv :=
                    or_default "hosp_report_prob" prob;
                  HospitalAdmissions.infection_to_admission_interval_rv :=
                    delay |}
      else inl AssertionError.
Proof.
  intros delay rate name dow prob.
  destruct rate, dow, prob; reflexivity.
Qed.

(** ** Shapes under broadcasting *)

Ltac shape_length := simpl; rewrite ?length_map; reflexivity.

Lemma multiply_shape_r a xs t :
  Numpy.multiply a (Array xs) = inr t ->
  length xs <> 1 \/ unit_shape a ->
  exists ys, t = Array ys /\ length ys = length xs.
Proof.
  destruct a as [q | zs]; simpl; intros H Hshape.
  - inversion H. eexists. split; [reflexivity | shape_length].
  - destruct (Nat.eqb_spec (length zs) (length xs)) as [Heq | Hne].
    + inversion H. eexists. split; [reflexivity |].
      rewrite length_map2, Heq. apply Nat.min_id.
    + destruct zs as [| z [| z' zs]].
      * destruct xs as [| x [| x' xs]]; try discriminate.
        simpl in Hne. destruct Hshape as [Hx | Hz]; [| discriminate].
        exfalso. apply Hx. reflexivity.
      * inversion H. eexists. split; [reflexivity | shape_length].
      * destruct xs as [| x [| x' xs]]; try discriminate.
        destruct Hshape as [Hx | Hz]; [| discriminate].
        exfalso. apply Hx. reflexivity.
Qed.

Lemma multiply_shape_l xs b t :
  Numpy.multiply (Array xs) b = inr t ->
  length xs <> 1 \/ unit_shape b ->
  exists ys, t = Array ys /\ length ys = length xs.
Proof.
  destruct b as [q | zs]; simpl; intros H Hshape.
  - inversion H. eexists. split; [reflexivity | shape_length].
  - destruct (Nat.eqb_spec (length xs) (length zs)) as [Heq | Hne].
    + inversion H. eexists. split; [reflexivity |].
      rewrite length_map2, Heq. apply Nat.min_id.
    + destruct xs as [| x [| x' xs]].
      * destruct zs as [| z [| z' zs]]; try discriminate.
        inversion H. eexists. split; [reflexivity | shape_length].
      * destruct Hshape as [Hx | Hz]; [exfalso; apply Hx; reflexivity |].
        simpl in Hz, Hne. congruence.
      * destruct zs as [| z [| z' zs]]; try discriminate.
        inversion H. eexists. split; [reflexivity | shape_length].
Qed.

(** C2 as stated fails: for a one-entry infection series and a weekday
    effect sampled as an array of seven entries, broadcasting stretches the
    admissions to seven entries. *)
Lemma sample_length_broadcast_counterexample :
  exists s adm tr',
    HospitalAdmissions.sample
      {| HospitalAdmissions.latent_hospital_admissions_varname :=
           HospitalAdmissions.default_varname;
         HospitalAdmissions.infect_hosp_rate_rv := const_rv (Scalar (1#10));
         HospitalAdmissions.day_of_week_effect_rv :=
           const_rv (Array [1; 1; 1; 1; 1; 1; 1]%Q);
         HospitalAdmissions.hosp_report_prob_rv := const_rv (Scalar 1);
         HospitalAdmissions.infection_to_admission_interval_rv :=
           const_rv (Array [1#2; 1#2]%Q) |}
      (Array [100]%Q) [] []
    = (inr s, tr') /\
    latent_hospital_admissions s = Some (Array adm) /\
    length adm = 7 /\ length adm <> length [100]%Q.
Proof.
  eexists. eexists. eexists. split; [reflexivity |].
  split; [reflexivity |]. split; [reflexivity | discriminate].
Qed.

(** C2, amended.  Whenever [sample] returns, the full convolution of the
    rate-scaled infections with the sampled delay array was truncated to its
    first [len(latent_infections)] entries, whatever the length of the delay
    array, and the returned series has length [len(latent_infections)];
    for a one-entry infection series this needs the sampled rate, weekday
    effect and reporting probability to be scalars or one-entry arrays. *)
Theorem sample_length :
  forall self li kw tr s tr',
    HospitalAdmissions.sample self (Array li) kw tr = (inr s, tr') ->
    (length li = 1 ->
     forall o v,
       In o [HospitalAdmissions.infect_hosp_rate_rv self;
             HospitalAdmissions.day_of_week_effect_rv self;
             HospitalAdmissions.hosp_report_prob_rv self] ->
       sampled o kw = inr v -> unit_shape v) ->
    exists r t d w p adm,
      sampled (HospitalAdmissions.infect_hosp_rate_rv self) kw = inr r /\
      sampled (HospitalAdmissions.infection_to_admission_interval_rv self) kw
        = inr (Array d) /\
      sampled (HospitalAdmissions.day_of_week_effect_rv self) kw = inr w /\
      sampled (HospitalAdmissions.hosp_report_prob_rv self) kw = inr p /\
      Numpy.multiply r (Array li) = inr (Array t) /\
      and_then (Numpy.multiply
                  (Array (firstn (length li) (Numpy.conv_full t d))) w)
               (fun l => Numpy.multiply l p) = inr (Array adm) /\
      length (firstn (length li) (Numpy.conv_full t d)) = length li /\
      latent_hospital_admissions s = Some (Array adm) /\
      length adm = length li.
Proof.
  intros self li kw tr s tr' Hrun Hone.
  apply sample_inv in Hrun as (r & d & w & p & adm & Hr & Hd & Hw & Hp & Hadm & ->).
  assert (Hshape : forall o v,
             In o [HospitalAdmissions.infect_hosp_rate_rv self;
                   HospitalAdmissions.day_of_week_effect_rv self;
                   HospitalAdmissions.hosp_report_prob_rv self] ->
             sampled o kw = inr v -> length li <> 1 \/ unit_shape v).
  { intros o v Ho Hv. destruct (Nat.eq_dec (length li) 1) as [H1 | H1].
    - right. exact (Hone H1 o v Ho Hv).
    - left. exact H1. }
  unfold admissions_of in Hadm.
  apply and_then_inr in Hadm as (t & Ht & Hadm).
  apply and_then_inr in Hadm as (full & Hfull & Hadm).
  apply and_then_inr in Hadm as (n & Hn & Hadm).
  apply and_then_inr in Hadm as (l1 & Hl1 & Hadm).
  apply and_then_inr in Hadm as (l2 & Hl2 & Hadm).
  destruct (multiply_shape_r _ _ _ Ht (Hshape _ _ (or_introl eq_refl) Hr))
    as (ts & -> & Hlen_t).
  apply convolve_inr in Hfull as (xs & ys & Hxs & -> & _ & Hys & ->).
  inversion Hxs; subst xs. simpl in Hn. inversion Hn; subst n.
  simpl in Hl1. inversion Hl1; subst l1. rewrite Hlen_t in *.
  assert (Hlen1 : length (firstn (length li) (Numpy.conv_full ts ys))
                  = length li).
  { rewrite <- Hlen_t. apply length_firstn_conv_full. exact Hys. }
  assert (Hin_w : In (HospitalAdmissions.day_of_week_effect_rv self)
                     [HospitalAdmissions.infect_hosp_rate_rv self;
                      HospitalAdmissions.day_of_week_effect_rv self;
                      HospitalAdmissions.hosp_report_prob_rv self])
    by (right; left; reflexivity).
  assert (Hin_p : In (HospitalAdmissions.hosp_report_prob_rv self)
                     [HospitalAdmissions.infect_hosp_rate_rv self;
                      HospitalAdmissions.day_of_week_effect_rv self;
                      HospitalAdmissions.hosp_report_prob_rv self])
    by (right; right; left; reflexivity).
  destruct (multiply_shape_l _ _ _ Hl2) as (l2s & -> & Hlen2).
  { rewrite Hlen1. exact (Hshape _ _ Hin_w Hw). }
  destruct (multiply_shape_l _ _ _ Hadm) as (adms & -> & Hlen3).
  { rewrite Hlen2, Hlen1. exact (Hshape _ _ Hin_p Hp). }
  exists r, ts, ys, w, p, adms.
  repeat split; try assumption.
  - rewrite Hl2. exact Hadm.
  - rewrite Hlen3, Hlen2. exact Hlen1.
Qed.

(** The amended C2 at a one-entry series with scalar effects and a delay array
    longer than the series. *)
Lemma sample_length_witness :
  exists s tr' adm,
    HospitalAdmissions.sample
      {| HospitalAdmissions.latent_hospital_admissions_varname :=
           HospitalAdmissions.default_varname;
         HospitalAdmissions.infect_hosp_rate_rv := const_rv (Scalar (1#10));
         HospitalAdmissions.day_of_week_effect_rv := const_rv (Scalar 1);
         HospitalAdmissions.hosp_report_prob_rv := const_rv (Scalar 1);
         HospitalAdmissions.infection_to_admission_interval_rv :=
           const_rv (Array [1#2; 1#4; 1#4]%Q) |}
      (Array [100]%Q) [] []
    = (inr s, tr') /\
    latent_hospital_admissions s = Some (Array adm) /\
    length adm = length [100]%Q.
Proof.
  eexists. eexists.
  destruct (sample_length
              {| HospitalAdmissions.latent_hospital_admissions_varname :=
                   HospitalAdmissions.default_varname;
                 HospitalAdmissions.infect_hosp_rate_rv :=
                   const_rv (Scalar (1#10));
                 HospitalAdmissions.day_of_week_effect_rv :=
                   const_rv (Scalar 1);
                 HospitalAdmissions.hosp_report_prob_rv := const_rv (Scalar 1);
                 HospitalAdmissions.infection_to_admission_interval_rv :=
                   const_rv (Array [1#2; 1#4; 1#4]%Q) |}
              [100]%Q [] [] _ _ eq_refl)
    as (r & t & d & w & p & adm & _ & _ & _ & _ & _ & _ & _ & Hs & Hlen).
  - intros _ o v Ho Hv. simpl in Ho.
    destruct Ho as [<- | [<- | [<- | []]]]; simpl in Hv; inversion Hv;
      exact I.
  - exists adm. split; [reflexivity |]. split; [exact Hs | exact Hlen].
Defined.

(** ** Zero delay and unit effects *)

Lemma Forall2_Qeq_mul_one xs ys :
  Forall2 Qeq xs ys -> Forall2 Qeq (map (fun x => x * 1)%Q xs) ys.
Proof.
  induction 1 as [| x y xs ys Hxy H IH]; simpl; constructor.
  - rewrite Hxy. ring.
  - exact IH.
Qed.

(** C7 as stated fails at the empty series: [jnp.convolve] refuses an empty
    operand, so [sample] raises instead of returning the empty series. *)
Lemma sample_empty_series_raises :
  exists self,
    HospitalAdmissions.init (const_rv (Array [1]%Q))
                            (const_rv (Scalar (1#10)))
                            HospitalAdmissions.default_varname
                            (const_rv (Scalar 1)) (const_rv (Scalar 1))
    = inr self /\
    fst (HospitalAdmissions.sample self (Array []) [] [])
    = inl (ValueError "convolve: inputs cannot be empty").
Proof. eexists. split; reflexivity. Qed.

Lemma Forall2_Qeq_refl xs : Forall2 Qeq xs xs.
Proof. induction xs; constructor; [reflexivity | assumption]. Qed.

Lemma Forall2_Qeq_trans xs ys zs :
  Forall2 Qeq xs ys -> Forall2 Qeq ys zs -> Forall2 Qeq xs zs.
Proof.
  intros H. revert zs. induction H as [| x y xs ys Hxy H IH]; intros zs Hz;
    inversion Hz; subst; constructor.
  - etransitivity; eassumption.
  - apply IH. assumption.
Qed.

Lemma multiply_const_l q r li :
  is_const q r ->
  exists t, Numpy.multiply r (Array li) = inr (Array t) /\
            Forall2 Qeq t (map (Qmult q) li).
Proof.
  intros [-> | ->].
  - eexists. split; [reflexivity | apply Forall2_Qeq_refl].
  - destruct li as [| x [| x' li]]; eexists;
      (split; [reflexivity | apply Forall2_Qeq_refl]).
Qed.

Lemma multiply_one_r xs w :
  is_const 1 w ->
  exists t, Numpy.multiply (Array xs) w = inr (Array t) /\ Forall2 Qeq t xs.
Proof.
  intros [-> | ->].
  - eexists. split; [reflexivity |].
    apply Forall2_Qeq_mul_one, Forall2_Qeq_refl.
  - destruct xs as [| x [| x' xs]]; eexists; (split; [reflexivity |]).
    + constructor.
    + constructor; [ring | constructor].
    + apply (Forall2_Qeq_mul_one (x :: x' :: xs)), Forall2_Qeq_refl.
Qed.

(** C7, amended.  For every non-empty latent infection series and every
    constant sampled rate [q], when the delay process samples [1] and the
    weekday and reporting processes sample the constant 1, [sample] returns
    the sampled rate and admissions equal entry by entry to
    [q * latent_infections]. *)
Theorem sample_zero_delay :
  forall self li q r w p kw tr,
    li <> [] ->
    sampled (HospitalAdmissions.infect_hosp_rate_rv self) kw = inr r ->
    is_const q r ->
    sampled (HospitalAdmissions.infection_to_admission_interval_rv self) kw
      = inr (Array [1]%Q) ->
    sampled (HospitalAdmissions.day_of_week_effect_rv self) kw = inr w ->
    is_const 1 w ->
    sampled (HospitalAdmissions.hosp_report_prob_rv self) kw = inr p ->
    is_const 1 p ->
    exists adm tr',
      HospitalAdmissions.sample self (Array li) kw tr
      = (inr {| infection_hosp_rate := Some r;
                latent_hospital_admissions := Some (Array adm) |}, tr') /\
      Forall2 Qeq adm (map (Qmult q) li).
Proof.
  intros self li q r w p kw tr Hli Hr Hq Hd Hw Hw1 Hp Hp1.
  destruct (multiply_const_l q r li Hq) as (t & Ht & Hteq).
  pose (l1 := firstn (length t) (Numpy.conv_full t [1]%Q)).
  destruct (multiply_one_r l1 w Hw1) as (l2 & Hl2 & Hl2eq).
  destruct (multiply_one_r l2 p Hp1) as (adm & Hadm & Hadmeq).
  assert (Hconv : Numpy.convolve (Array t) (Array [1]%Q)
                  = inr (Array (Numpy.conv_full t [1]%Q))).
  { destruct t as [| x t]; [| reflexivity].
    destruct li; [contradiction | inversion Hteq]. }
  exists adm. eexists. split.
  - eapply sample_run; try eassumption.
    unfold admissions_of.
    rewrite (and_then_run _ _ _ Ht), (and_then_run _ _ _ Hconv).
    rewrite (and_then_run (Numpy.shape0 (Array t)) _ (length t) eq_refl).
    rewrite (and_then_run
               (Numpy.take (length t) (Array (Numpy.conv_full t [1]%Q)))
               _ (Array l1) eq_refl).
    rewrite (and_then_run _ _ _ Hl2). exact Hadm.
  - apply (Forall2_Qeq_trans _ _ _ Hadmeq).
    apply (Forall2_Qeq_trans _ _ _ Hl2eq).
    apply (Forall2_Qeq_trans _ t); [apply firstn_conv_full_unit | exact Hteq].
Qed.

Lemma sample_zero_delay_witness :
  exists adm tr',
    HospitalAdmissions.sample
      {| HospitalAdmissions.latent_hospital_admissions_varname :=
           HospitalAdmissions.default_varname;
         HospitalAdmissions.infect_hosp_rate_rv := const_rv (Scalar (3#10));
         HospitalAdmissions.day_of_week_effect_rv := const_rv (Array [1]%Q);
         HospitalAdmissions.hosp_report_prob_rv := const_rv (Scalar 1);
         HospitalAdmissions.infection_to_admission_interval_rv :=
           const_rv (Array [1]%Q) |}
      (Array [10; 20; 40]%Q) [] []
    = (inr {| infection_hosp_rate := Some (Scalar (3#10));
              latent_hospital_admissions := Some (Array adm) |}, tr') /\
    Forall2 Qeq adm (map (Qmult (3#10)) [10; 20; 40]%Q).
Proof.
  apply (sample_zero_delay _ [10; 20; 40]%Q (3#10) (Scalar (3#10))
           (Array [1]%Q) (Scalar 1)).
  - discriminate.
  - reflexivity.
  - left. reflexivity.
  - reflexivity.
  - reflexivity.
  - right. reflexivity.
  - reflexivity.
  - left. reflexivity.
Defined.

(** ** Linearity in the rate *)

Section Scaling.

Variable c : Q.

Local Abbreviation R := (fun x y : Q => (y == c * x)%Q).

Lemma scaled_scale v : scaled c v (scale c v).
Proof.
  destruct v as [q | xs]; simpl.
  - reflexivity.
  - induction xs as [| x xs IH]; constructor; [reflexivity | exact IH].
Qed.

Lemma scaled_map_r xs ys z :
  Forall2 R xs ys ->
  Forall2 R (map (fun x => x * z)%Q xs) (map (fun y => y * z)%Q ys).
Proof.
  induction 1 as [| x y xs ys Hxy H IH]; simpl; constructor.
  - cbv beta in *. rewrite Hxy. ring.
  - exact IH.
Qed.

Lemma scaled_map_l x y zs :
  R x y ->
  Forall2 R (map (fun z => x * z)%Q zs) (map (fun z => y * z)%Q zs).
Proof.
  intros Hxy. induction zs as [| z zs IH]; simpl; constructor.
  - cbv beta in *. rewrite Hxy. ring.
  - exact IH.
Qed.

Lemma scaled_map2 xs ys :
  Forall2 R xs ys ->
  forall zs, Forall2 R (Numpy.map2 Qmult xs zs) (Numpy.map2 Qmult ys zs).
Proof.
  induction 1 as [| x y xs ys Hxy H IH]; intros [| z zs]; simpl;
    constructor.
  - cbv beta in *. rewrite Hxy. ring.
  - apply IH.
Qed.

Lemma scaled_nth xs ys :
  Forall2 R xs ys -> forall k, R (nth k xs 0%Q) (nth k ys 0%Q).
Proof.
  induction 1 as [| x y xs ys Hxy H IH]; intros [| k]; simpl;
    try (cbv beta; ring); auto.
Qed.

Lemma scaled_conv_full xs ys d :
  Forall2 R xs ys ->
  Forall2 R (Numpy.conv_full xs d) (Numpy.conv_full ys d).
Proof.
  intros H. unfold Numpy.conv_full.
  rewrite (Forall2_length H). apply Forall2_map_same. intros k _.
  unfold Numpy.conv_at. apply Qsum_map_ext. intros tau _.
  pose proof (scaled_nth xs ys H (k - tau)) as Hn.
  cbv beta in *. rewrite Hn. ring.
Qed.

Lemma multiply_scaled a a' b :
  scaled c a a' ->
  scaled_result c (Numpy.multiply a b) (Numpy.multiply a' b).
Proof.
  destruct a as [x | xs], a' as [y | ys]; simpl; try contradiction;
    intros H.
  - destruct b as [z | zs]; simpl.
    + rewrite H. ring.
    + apply scaled_map_l. exact H.
  - destruct b as [z | zs]; simpl.
    + apply scaled_map_r. exact H.
    + rewrite <- (Forall2_length H).
      destruct (length xs =? length zs).
      * simpl. apply scaled_map2. exact H.
      * destruct H as [| x y xs ys Hxy H]; [destruct zs as [| z [| z' zs]] |].
        -- reflexivity.
        -- simpl. constructor.
        -- reflexivity.
        -- destruct H as [| x' y' xs ys Hxy' H].
           ++ simpl. apply scaled_map_l. exact Hxy.
           ++ destruct zs as [| z [| z' zs]]; simpl; try reflexivity.
              apply (scaled_map_r (x :: x' :: xs) (y :: y' :: ys) z).
              repeat constructor; assumption.
Qed.

Lemma convolve_scaled a a' d :
  scaled c a a' ->
  scaled_result c (Numpy.convolve a d) (Numpy.convolve a' d).
Proof.
  destruct a as [x | xs], a' as [y | ys]; simpl; try contradiction;
    intros H.
  - reflexivity.
  - destruct d as [z | zs]; [reflexivity |].
    destruct H as [| x y xs ys Hxy H]; [reflexivity |].
    destruct zs as [| z zs]; [reflexivity |].
    simpl. apply scaled_conv_full. constructor; assumption.
Qed.

Lemma take_scaled n a a' :
  scaled c a a' -> scaled_result c (Numpy.take n a) (Numpy.take n a').
Proof.
  destruct a as [x | xs], a' as [y | ys]; simpl; try contradiction;
    intros H.
  - reflexivity.
  - apply Forall2_firstn. exact H.
Qed.

Lemma shape0_scaled a a' :
  scaled c a a' -> Numpy.shape0 a = Numpy.shape0 a'.
Proof.
  destruct a as [x | xs], a' as [y | ys]; simpl; try contradiction;
    intros H.
  - reflexivity.
  - rewrite (Forall2_length H). reflexivity.
Qed.

Lemma and_then_scaled (r r' : exn + value) (k k' : value -> exn + value) :
  scaled_result c r r' ->
  (forall v v', scaled c v v' -> scaled_result c (k v) (k' v')) ->
  scaled_result c (and_then r k) (and_then r' k').
Proof.
  destruct r as [e | v], r' as [e' | v']; simpl; try contradiction; auto.
Qed.

Lemma admissions_of_scaled r r' d w p li :
  scaled c r r' ->
  scaled_result c (admissions_of r d w p li) (admissions_of r' d w p li).
Proof.
  intros Hr. unfold admissions_of.
  apply and_then_scaled; [apply multiply_scaled; exact Hr |].
  intros t t' Ht.
  apply and_then_scaled; [apply convolve_scaled; exact Ht |].
  intros full full' Hfull. rewrite <- (shape0_scaled t t' Ht).
  destruct (Numpy.shape0 t) as [e | n]; simpl; [reflexivity |].
  apply and_then_scaled; [apply take_scaled; exact Hfull |].
  intros l l' Hl.
  apply and_then_scaled; [apply multiply_scaled; exact Hl |].
  intros l2 l2' Hl2. apply multiply_scaled. exact Hl2.
Qed.

End Scaling.

Lemma multiply_array_l xs b t :
  Numpy.multiply (Array xs) b = inr t -> exists ys, t = Array ys.
Proof.
  destruct b as [z | zs]; simpl.
  - intros H. inversion H. eexists. reflexivity.
  - destruct (length xs =? length zs).
    + intros H. inversion H. eexists. reflexivity.
    + destruct xs as [| x [| x' xs]]; destruct zs as [| z [| z' zs]];
        intros H; inversion H; eexists; reflexivity.
Qed.

Lemma admissions_of_array r d w p li adm :
  admissions_of r d w p li = inr adm -> exists xs, adm = Array xs.
Proof.
  unfold admissions_of. intros H.
  apply and_then_inr in H as (t & Ht & H).
  apply and_then_inr in H as (full & Hfull & H).
  apply and_then_inr in H as (n & Hn & H).
  apply and_then_inr in H as (l1 & Hl1 & H).
  apply and_then_inr in H as (l2 & Hl2 & H).
  apply convolve_inr in Hfull as (xs & ys & -> & -> & _ & _ & ->).
  simpl in Hl1. inversion Hl1; subst l1.
  apply multiply_array_l in Hl2 as (l2s & ->).
  apply multiply_array_l in H as (adms & ->).
  eexists. reflexivity.
Qed.

(** C8.  With the delay, weekday and reporting processes held fixed, if
    [sample] returns for a rate process sampling [r], then for a rate process
    sampling twice [r] it returns too, and every entry of the admissions
    series is doubled. *)
Theorem sample_doubling_rate :
  forall name rate rate2 dow prob delay li kw tr r s tr',
    sampled rate kw = inr r ->
    sampled rate2 kw = inr (scale 2 r) ->
    HospitalAdmissions.sample
      {| HospitalAdmissions.latent_hospital_admissions_varname := name;
         HospitalAdmissions.infect_hosp_rate_rv := rate;
         HospitalAdmissions.day_of_week_effect_rv := dow;
         HospitalAdmissions.hosp_report_prob_rv := prob;
         HospitalAdmissions.infection_to_admission_interval_rv := delay |}
      (Array li) kw tr = (inr s, tr') ->
    exists adm adm2 tr2,
      latent_hospital_admissions s = Some (Array adm) /\
      HospitalAdmissions.sample
        {| HospitalAdmissions.latent_hospital_admissions_varname := name;
           HospitalAdmissions.infect_hosp_rate_rv := rate2;
           HospitalAdmissions.day_of_week_effect_rv := dow;
           HospitalAdmissions.hosp_report_prob_rv := prob;
           HospitalAdmissions.infection_to_admission_interval_rv := delay |}
        (Array li) kw tr
      = (inr {| infection_hosp_rate := Some (scale 2 r);
                latent_hospital_admissions := Some (Array adm2) |}, tr2) /\
      Forall2 (fun x y => y == 2 * x)%Q adm adm2.
Proof.
  intros name rate rate2 dow prob delay li kw tr r s tr' Hr Hr2 Hrun.
  apply sample_inv in Hrun
    as (r0 & d & w & p & adm & Hr0 & Hd & Hw & Hp & Hadm & ->).
  simpl in Hr0, Hd, Hw, Hp. rewrite Hr in Hr0. inversion Hr0; subst r0.
  pose proof (admissions_of_scaled 2 r (scale 2 r) d w p (Array li)
                (scaled_scale 2 r)) as Hs.
  rewrite Hadm in Hs.
  destruct (admissions_of (scale 2 r) d w p (Array li)) as [e | adm2] eqn:Hadm2;
    [contradiction |].
  destruct (admissions_of_array _ _ _ _ _ _ Hadm) as (xs & ->).
  destruct (admissions_of_array _ _ _ _ _ _ Hadm2) as (ys & ->).
  exists xs, ys. eexists. split; [reflexivity |]. split.
  - eapply sample_run; simpl; eassumption.
  - exact Hs.
Qed.

Lemma sample_doubling_rate_witness :
  exists s tr' adm adm2 tr2,
    HospitalAdmissions.sample
      {| HospitalAdmissions.latent_hospital_admissions_varname :=
           HospitalAdmissions.default_varname;
         HospitalAdmissions.infect_hosp_rate_rv := const_rv (Scalar (1#10));
         HospitalAdmissions.day_of_week_effect_rv := const_rv (Scalar 1);
         HospitalAdmissions.hosp_report_prob_rv := const_rv (Scalar 1);
         HospitalAdmissions.infection_to_admission_interval_rv :=
           const_rv (Array [1#2; 1#2]%Q) |}
      (Array [100; 100]%Q) [] []
    = (inr s, tr') /\
    latent_hospital_admissions s = Some (Array adm) /\
    HospitalAdmissions.sample
      {| HospitalAdmissions.latent_hospital_admissions_varname :=
           HospitalAdmissions.default_varname;
         HospitalAdmissions.infect_hosp_rate_rv := const_rv (Scalar (2#10));
         HospitalAdmissions.day_of_week_effect_rv := const_rv (Scalar 1);
         HospitalAdmissions.hosp_report_prob_rv := const_rv (Scalar 1);
         HospitalAdmissions.infection_to_admission_interval_rv :=
           const_rv (Array [1#2; 1#2]%Q) |}
      (Array [100; 100]%Q) [] []
    = (inr {| infection_hosp_rate := Some (Scalar (2#10));
              latent_hospital_admissions := Some (Array adm2) |}, tr2) /\
    Forall2 (fun x y => y == 2 * x)%Q adm adm2.
Proof.
  eexists. eexists.
  destruct (sample_doubling_rate
              HospitalAdmissions.default_varname
              (const_rv (Scalar (1#10))) (const_rv (Scalar (2#10)))
              (const_rv (Scalar 1)) (const_rv (Scalar 1))
              (const_rv (Array [1#2; 1#2]%Q))
              [100; 100]%Q [] [] (Scalar (1#10)) _ _
              eq_refl eq_refl eq_refl)
    as (adm & adm2 & tr2 & Hadm & Hrun2 & Hdouble).
  exists adm, adm2, tr2.
  split; [reflexivity |]. split; [exact Hadm |].
  split; [exact Hrun2 | exact Hdouble].
Defined.

(** ** Slices *)

Lemma length_slice_from {A} (k : Z) (xs : list A) :
  (0 <= k)%Z -> length (Numpy.slice_from k xs) = length xs - Z.to_nat k.
Proof.
  intros Hk. unfold Numpy.slice_from.
  destruct (Z.leb_spec 0 k) as [_ | Hneg]; [| lia]. apply length_skipn.
Qed.

Lemma length_slice_from_same {A B} (k : Z) (xs : list A) (ys : list B) :
  length xs = length ys ->
  length (Numpy.slice_from k xs) = length (Numpy.slice_from k ys).
Proof.
  intros H. unfold Numpy.slice_from.
  destruct (0 <=? k)%Z; rewrite !length_skipn, H; reflexivity.
Qed.

Lemma length_pad_x_to_match_y {A B} (x : list A) (y : list B) fill :
  length x <= length y -> length (pad_x_to_match_y x y fill) = length y.
Proof.
  intros H. unfold pad_x_to_match_y. rewrite length_app, repeat_length. lia.
Qed.

Lemma slice_from_pad {A B} (x : list A) (y : list B) fill (padding : Z) :
  length x <= length y -> (0 <= padding)%Z ->
  Numpy.slice_from (Z.of_nat (length y) - Z.of_nat (length x) + padding)
                   (pad_x_to_match_y x y fill)
  = skipn (Z.to_nat padding) x.
Proof.
  intros Hlen Hpad. unfold Numpy.slice_from, pad_x_to_match_y.
  destruct (Z.leb_spec 0 (Z.of_nat (length y) - Z.of_nat (length x) + padding))
    as [_ | Hneg]; [| lia].
  replace (Z.to_nat (Z.of_nat (length y) - Z.of_nat (length x) + padding))
    with ((length y - length x) + Z.to_nat padding) by lia.
  rewrite skipn_app, repeat_length.
  replace (length y - length x + Z.to_nat padding - (length y - length x))
    with (Z.to_nat padding) by lia.
  rewrite skipn_all2 by (rewrite repeat_length; lia). reflexivity.
Qed.

(** ** [HospitalAdmissionsModel.sample] *)

Lemma model_sample_inv self n data padding kw tr s tr' :
  HospitalAdmissionsModel.sample self n data padding kw tr = (inr s, tr') ->
  exists n_timepoints basic_model hosp latent tr1,
    ((n = Some n_timepoints /\ data = None) \/
     (n = None /\ exists d, data = Some d /\
                            n_timepoints = Z.of_nat (length d))) /\
    HospitalAdmissionsModel.basic_renewal self n_timepoints padding kw
    = inr basic_model /\
    HospitalAdmissionsModel.latent_hosp_admissions_rv self
      (basic_latent_infections basic_model) kw
      (tr ++ [RenewalSampleCall n_timepoints padding])
    = (inr hosp, tr1) /\
    latent_hospital_admissions hosp = Some (Array latent) /\
    Rt s = Some (basic_Rt basic_model) /\
    latent_infections s = Some (basic_latent_infections basic_model) /\
    hm_infection_hosp_rate s = infection_hosp_rate hosp /\
    latent_hosp_admissions s = latent_hospital_admissions hosp /\
    (HospitalAdmissionsModel.hosp_admission_obs_process_rv self = None ->
     observed_hosp_admissions s = None /\ tr' = tr1).
Proof.
  unfold HospitalAdmissionsModel.sample. intros H.
  apply bind_inr in H as (nt & tr0 & Hnt & H).
  assert (Hres : tr0 = tr /\
                 ((n = Some nt /\ data = None) \/
                  (n = None /\ exists d, data = Some d /\
                                         nt = Z.of_nat (length d)))).
  { destruct n as [n |], data as [d |]; unfold ret, raise in Hnt;
      inversion Hnt; subst; split; auto.
    right. split; [reflexivity |]. exists d. split; reflexivity. }
  destruct Hres as [-> Hres].
  apply bind_inr in H as (bm & tr1 & Hbm & H).
  unfold HospitalAdmissionsModel.basic_renewal_sample in Hbm.
  apply bind_inr in Hbm as (u & tr1' & Hemit & Hbm).
  unfold emit in Hemit. inversion Hemit; subst tr1'.
  apply lift_inr in Hbm as [Hbm ->].
  apply bind_inr in H as (hosp & tr2 & Hhosp & H).
  unfold HospitalAdmissionsModel.sample_latent_hosp_admissions in Hhosp.
  apply bind_inr in H as (lat & tr3 & Hlat & H).
  apply lift_inr in Hlat as [Hlat ->].
  apply bind_inr in H as (obs & tr4 & Hobs & H).
  unfold ret in H. inversion H; subst s tr'. simpl.
  exists nt, bm, hosp, lat, tr2.
  repeat (split; [first [assumption | reflexivity] |]).
  split.
  - unfold HospitalAdmissionsModel.as_series in Hlat.
    destruct (latent_hospital_admissions hosp) as [[q | xs] |];
      inversion Hlat. reflexivity.
  - repeat (split; [reflexivity |]).
    intros Hnone. rewrite Hnone in Hobs. unfold ret in Hobs.
    inversion Hobs. split; reflexivity.
Qed.

(** The fit-mode run: what reaches the observation process. *)
Lemma model_sample_fit self obs_process data padding kw tr bm hosp lat tr1 :
  HospitalAdmissionsModel.hosp_admission_obs_process_rv self
  = Some obs_process ->
  HospitalAdmissionsModel.basic_renewal self (Z.of_nat (length data))
                                        padding kw = inr bm ->
  HospitalAdmissionsModel.latent_hosp_admissions_rv self
    (basic_latent_infections bm) kw
    (tr ++ [RenewalSampleCall (Z.of_nat (length data)) padding])
  = (inr hosp, tr1) ->
  latent_hospital_admissions hosp = Some (Array lat) ->
  let offset :=
    (Z.of_nat (length lat) - Z.of_nat (length data) + padding)%Z in
  snd (HospitalAdmissionsModel.sample self None (Some data) padding kw tr)
  = tr1 ++ [ObsProcessCall
              (Numpy.slice_from offset lat)
              (Some (Numpy.slice_from offset
                       (pad_x_to_match_y data lat NaN)))].
Proof.
  intros Hobs Hbm Hhosp Hlat offset.
  unfold HospitalAdmissionsModel.sample,
    HospitalAdmissionsModel.basic_renewal_sample,
    HospitalAdmissionsModel.sample_latent_hosp_admissions,
    HospitalAdmissionsModel.sample_admissions_process,
    HospitalAdmissionsModel.as_series.
  unfold bind, ret, emit, lift. rewrite Hbm, Hhosp, Hlat, Hobs.
  fold offset.
  destruct (obs_process (Numpy.slice_from offset lat)
              (Some (Numpy.slice_from offset (pad_x_to_match_y data lat NaN)))
              kw); reflexivity.
Qed.

(** C3 as stated fails when the padding exceeds the length of the data: both
    slices are empty, and their length 0 is not [L - padding]. *)
Lemma fit_mode_slice_length_counterexample :
  exists tr1,
    snd (HospitalAdmissionsModel.sample (example_model 0 true) None
           (Some [Fin 7]) 2 [] [])
    = tr1 ++ [ObsProcessCall [] (Some [])] /\
    Z.of_nat (length (@nil Q))
    <> (Z.of_nat (length [Fin 7]) - 2)%Z /\
    Z.of_nat (length (@nil fnum))
    <> (Z.of_nat (length [Fin 7]) - 2)%Z.
Proof.
  refine (ex_intro _ [_; _; _; _; _; _] _).
  split; [reflexivity |]. split; discriminate.
Qed.

(** C3, amended.  In fit mode, with data of length [L] and a latent
    admissions series of length [L + i0_size], the data are left-padded with
    NaN markers to length [L + i0_size], and the observation process receives
    the mean series and the padded data both sliced from offset
    [i0_size + padding]; the two slices have equal length, which for a
    non-negative offset is [max (L - padding) 0], that is [L - padding]
    whenever [padding <= L]. *)
Theorem fit_mode_alignment :
  forall self obs_process data padding kw tr bm hosp lat tr1 (i0_size : nat),
    HospitalAdmissionsModel.hosp_admission_obs_process_rv self
    = Some obs_process ->
    HospitalAdmissionsModel.basic_renewal self (Z.of_nat (length data))
                                          padding kw = inr bm ->
    HospitalAdmissionsModel.latent_hosp_admissions_rv self
      (basic_latent_infections bm) kw
      (tr ++ [RenewalSampleCall (Z.of_nat (length data)) padding])
    = (inr hosp, tr1) ->
    latent_hospital_admissions hosp = Some (Array lat) ->
    length lat = length data + i0_size ->
    let padded := pad_x_to_match_y data lat NaN in
    let mu := Numpy.slice_from (Z.of_nat i0_size + padding) lat in
    let obs := Numpy.slice_from (Z.of_nat i0_size + padding) padded in
    padded = repeat NaN i0_size ++ data /\
    length padded = length data + i0_size /\
    snd (HospitalAdmissionsModel.sample self None (Some data) padding kw tr)
    = tr1 ++ [ObsProcessCall mu (Some obs)] /\
    length mu = length obs /\
    ((0 <= Z.of_nat i0_size + padding)%Z ->
     Z.of_nat (length mu)
     = Z.max (Z.of_nat (length data) - padding) 0).
Proof.
  intros self obs_process data padding kw tr bm hosp lat tr1 i0_size
         Hobs Hbm Hhosp Hlat Hlen padded mu obs.
  assert (Hpadded : padded = repeat NaN i0_size ++ data).
  { unfold padded, pad_x_to_match_y. rewrite Hlen.
    replace (length data + i0_size - length data) with i0_size by lia.
    reflexivity. }
  assert (Hlen_padded : length padded = length lat).
  { apply length_pad_x_to_match_y. lia. }
  split; [exact Hpadded |]. split; [lia |]. split; [| split].
  - rewrite (model_sample_fit _ _ _ _ _ _ _ _ _ _ Hobs Hbm Hhosp Hlat).
    replace (Z.of_nat (length lat) - Z.of_nat (length data) + padding)%Z
      with (Z.of_nat i0_size + padding)%Z by lia.
    reflexivity.
  - apply length_slice_from_same. symmetry. exact Hlen_padded.
  - intros Hoff. unfold mu. rewrite length_slice_from by exact Hoff. lia.
Qed.

Lemma fit_mode_alignment_witness :
  exists tr1 mu obs,
    snd (HospitalAdmissionsModel.sample (example_model 2 true) None
           (Some [Fin 4; Fin 5; Fin 6]%Q) 1 [] [])
    = tr1 ++ [ObsProcessCall mu (Some obs)] /\
    obs = [Fin 5; Fin 6]%Q /\
    length mu = length obs /\
    Z.of_nat (length mu) = 2%Z.
Proof.
  destruct (fit_mode_alignment (example_model 2 true) _
              [Fin 4; Fin 5; Fin 6]%Q 1 [] [] _ _ _ _ 2
              eq_refl eq_refl eq_refl eq_refl eq_refl)
    as (_ & _ & Hrun & Hlen & Hmax).
  eexists. eexists. eexists. split; [exact Hrun |].
  split; [reflexivity |]. split; [exact Hlen |].
  apply Hmax. lia.
Defined.

(** C6.  A model without observation process returns, whenever [sample]
    returns at all and in either mode, a sample whose
    [observed_hosp_admissions] is absent. *)
Theorem sample_without_obs_process :
  forall self n data padding kw tr s tr',
    HospitalAdmissionsModel.hosp_admission_obs_process_rv self = None ->
    HospitalAdmissionsModel.sample self n data padding kw tr = (inr s, tr') ->
    observed_hosp_admissions s = None.
Proof.
  intros self n data padding kw tr s tr' Hnone Hrun.
  apply model_sample_inv in Hrun
    as (nt & bm & hosp & lat & tr1 & _ & _ & _ & _ & _ & _ & _ & _ & Hobs).
  apply Hobs. exact Hnone.
Qed.

Lemma sample_without_obs_process_witness :
  (exists s tr',
     HospitalAdmissionsModel.sample (example_model 2 false) (Some 3%Z) None
                                    0 [] [] = (inr s, tr') /\
     observed_hosp_admissions s = None) /\
  (exists s tr',
     HospitalAdmissionsModel.sample (example_model 2 false) None
                                    (Some [Fin 4; Fin 5; Fin 6]%Q)
                                    0 [] [] = (inr s, tr') /\
     observed_hosp_admissions s = None).
Proof.
  split; eexists; eexists; (split; [reflexivity |]).
  - exact (sample_without_obs_process (example_model 2 false) (Some 3%Z) None
             0%Z [] [] _ _ eq_refl eq_refl).
  - exact (sample_without_obs_process (example_model 2 false) None
             (Some [Fin 4; Fin 5; Fin 6]%Q) 0%Z [] [] _ _ eq_refl eq_refl).
Defined.

(** C9.  Whenever [sample] returns, the fields [Rt] and [latent_infections]
    of the result are the values the inner renewal model returned for the
    resolved number of time points and the given padding. *)
Theorem sample_passes_renewal_through :
  forall self n data padding kw tr s tr',
    HospitalAdmissionsModel.sample self n data padding kw tr = (inr s, tr') ->
    exists n_timepoints basic_model,
      ((n = Some n_timepoints /\ data = None) \/
       (n = None /\ exists d, data = Some d /\
                              n_timepoints = Z.of_nat (length d))) /\
      HospitalAdmissionsModel.basic_renewal self n_timepoints padding kw
      = inr basic_model /\
      Rt s = Some (basic_Rt basic_model) /\
      latent_infections s = Some (basic_latent_infections basic_model).
Proof.
  intros self n data padding kw tr s tr' Hrun.
  apply model_sample_inv in Hrun
    as (nt & bm & hosp & lat & tr1 & Hnt & Hbm & _ & _ & HRt & Hli & _).
  exists nt, bm. repeat split; assumption.
Qed.

Lemma sample_passes_renewal_through_witness :
  exists s tr' basic_model,
    HospitalAdmissionsModel.sample (example_model 2 true) (Some 3%Z) None
                                   0 [] [] = (inr s, tr') /\
    HospitalAdmissionsModel.basic_renewal (example_model 2 true) 3 0 []
    = inr basic_model /\
    Rt s = Some (basic_Rt basic_model) /\
    latent_infections s = Some (basic_latent_infections basic_model).
Proof.
  eexists. eexists.
  destruct (sample_passes_renewal_through (example_model 2 true) (Some 3%Z)
              None 0%Z [] [] _ _ eq_refl)
    as (nt & bm & Hnt & Hbm & HRt & Hli).
  assert (Hnt3 : nt = 3%Z).
  { destruct Hnt as [[H _] | [H _]]; [| discriminate].
    inversion H. reflexivity. }
  subst nt. exists bm.
  split; [lazy; reflexivity |].
  split; [exact Hbm |]. split; [exact HRt | exact Hli].
Defined.

(** C10.  In fit mode, for every padding >= 0 and every latent admissions
    series at least as long as the data, the observed series handed to the
    observation process is the data with its first [padding] entries
    removed: no NaN padding marker is part of it. *)
Theorem fit_mode_observed_slice :
  forall self obs_process data padding kw tr bm hosp lat tr1,
    HospitalAdmissionsModel.hosp_admission_obs_process_rv self
    = Some obs_process ->
    HospitalAdmissionsModel.basic_renewal self (Z.of_nat (length data))
                                          padding kw = inr bm ->
    HospitalAdmissionsModel.latent_hosp_admissions_rv self
      (basic_latent_infections bm) kw
      (tr ++ [RenewalSampleCall (Z.of_nat (length data)) padding])
    = (inr hosp, tr1) ->
    latent_hospital_admissions hosp = Some (Array lat) ->
    length data <= length lat ->
    (0 <= padding)%Z ->
    exists mu delivered,
      snd (HospitalAdmissionsModel.sample self None (Some data) padding kw tr)
      = tr1 ++ [ObsProcessCall mu (Some delivered)] /\
      delivered
      = Numpy.slice_from
          (Z.of_nat (length lat) - Z.of_nat (length data) + padding)
          (repeat NaN (length lat - length data) ++ data) /\
      delivered = skipn (Z.to_nat padding) data /\
      firstn (Z.to_nat padding) data ++ delivered = data.
Proof.
  intros self obs_process data padding kw tr bm hosp lat tr1
         Hobs Hbm Hhosp Hlat Hlen Hpad.
  eexists. eexists. split.
  - apply (model_sample_fit _ _ _ _ _ _ _ _ _ _ Hobs Hbm Hhosp Hlat).
  - split; [reflexivity |].
    rewrite (slice_from_pad data lat NaN padding Hlen Hpad).
    split; [reflexivity | apply firstn_skipn].
Qed.

Lemma fit_mode_observed_slice_witness :
  exists tr1 mu,
    snd (HospitalAdmissionsModel.sample (example_model 2 true) None
           (Some [NaN; Fin 5; Fin 6]%Q) 1 [] [])
    = tr1 ++ [ObsProcessCall mu (Some [Fin 5; Fin 6]%Q)].
Proof.
  destruct (fit_mode_observed_slice (example_model 2 true) _
              [NaN; Fin 5; Fin 6]%Q 1 [] [] _ _ _ _
              eq_refl eq_refl eq_refl eq_refl)
    as (mu & delivered & Hrun & _ & Hd & _).
  - simpl. lia.
  - lia.
  - simpl in Hd. subst delivered. eexists. exists mu. exact Hrun.
Defined.

(** * Further properties *)

(** ** The log of [HospitalAdmissions.sample] *)

Lemma bind_inl {A B} (c : M A) (k : A -> M B) tr e tr' :
  bind c k tr = (inl e, tr') ->
  c tr = (inl e, tr') \/
  exists a tr1, c tr = (inr a, tr1) /\ k a tr1 = (inl e, tr').
Proof.
  unfold bind. destruct (c tr) as [[e0 | a] tr1]; intros H.
  - left. inversion H. reflexivity.
  - right. exists a, tr1. split; [reflexivity | exact H].
Qed.

Lemma lift_inl {A} (r : exn + A) tr e tr' :
  lift r tr = (inl e, tr') -> tr' = tr.
Proof. unfold lift. intros H. inversion H. reflexivity. Qed.

Lemma call_sample_inl attr o kw tr e tr' :
  call_sample attr o kw tr = (inl e, tr') ->
  tr' = tr \/ tr' = tr ++ [SampleCall attr].
Proof.
  destruct o as [| smp | smp |]; simpl; unfold raise, bind, emit, lift;
    intros H; inversion H; auto.
Qed.

Lemma sample_inv_log self li kw tr s tr' :
  HospitalAdmissions.sample self li kw tr = (inr s, tr') ->
  exists r adm,
    sampled (HospitalAdmissions.infect_hosp_rate_rv self) kw = inr r /\
    s = {| infection_hosp_rate := Some r;
           latent_hospital_admissions := Some adm |} /\
    tr' = tr ++ sample_events
                  (HospitalAdmissions.latent_hospital_admissions_varname self)
                  adm.
Proof.
  intros H.
  destruct (sample_inv _ _ _ _ _ _ H)
    as (r & d & w & p & adm & Hr & Hd & Hw & Hp & Hadm & Hs).
  rewrite (sample_run _ _ _ tr _ _ _ _ _ Hr Hd Hw Hp Hadm) in H.
  inversion H. exists r, adm. repeat split; auto.
Qed.

(** X1.  Whenever [sample] returns, it has called the rate, delay, weekday
    and reporting processes once each, in this order, and then registered
    with [numpyro.deterministic], under the configured name, exactly the
    series it returns; the returned rate is the rate process's sample. *)
Theorem sample_registers_returned_series :
  forall self li kw tr s tr',
    HospitalAdmissions.sample self li kw tr = (inr s, tr') ->
    exists r adm,
      sampled (HospitalAdmissions.infect_hosp_rate_rv self) kw = inr r /\
      infection_hosp_rate s = Some r /\
      latent_hospital_admissions s = Some adm /\
      tr' = tr ++ sample_calls
               ++ [Deterministic
                     (HospitalAdmissions.latent_hospital_admissions_varname
                        self) adm].
Proof.
  intros self li kw tr s tr' H.
  apply sample_inv_log in H as (r & adm & Hr & -> & ->).
  exists r, adm. repeat split; auto.
Qed.

Lemma sample_registers_returned_series_witness :
  exists r adm,
    sampled (HospitalAdmissions.infect_hosp_rate_rv example_latent) []
    = inr r /\
    r = Scalar (1#10) /\
    Forall2 Qeq adm [10; 20]%Q /\
    snd (HospitalAdmissions.sample example_latent (Array [100; 200]%Q) [] [])
    = sample_calls
        ++ [Deterministic HospitalAdmissions.default_varname (Array adm)].
Proof.
  destruct (sample_registers_returned_series example_latent
              (Array [100; 200]%Q) [] [] _ _ eq_refl)
    as (r & adm & Hr & Hrate & Hadm & Htr).
  inversion Hrate; subst r. inversion Hadm; subst adm.
  eexists. eexists. split; [exact Hr |]. split; [reflexivity |].
  split; [| reflexivity].
  repeat (constructor; [reflexivity |]). constructor.
Defined.

(** X2.  When [sample] raises, nothing was registered with
    [numpyro.deterministic]: the log grew by an initial part of the four
    collaborator calls only. *)
Theorem sample_failure_registers_nothing :
  forall self li kw tr e tr',
    HospitalAdmissions.sample self li kw tr = (inl e, tr') ->
    exists k, tr' = tr ++ firstn k sample_calls.
Proof.
  intros self li kw tr e tr'. unfold HospitalAdmissions.sample. intros H.
  apply bind_inl in H as [H | (r & tr1 & Hr & H)].
  { apply call_sample_inl in H as [-> | ->];
      [exists 0 | exists 1]; simpl; rewrite ?app_nil_r; reflexivity. }
  apply call_sample_inr in Hr as [_ ->].
  apply bind_inl in H as [H | (t & tr2 & Ht & H)].
  { apply lift_inl in H as ->. exists 1. reflexivity. }
  apply lift_inr in Ht as [_ ->].
  apply bind_inl in H as [H | (d & tr3 & Hd & H)].
  { apply call_sample_inl in H as [-> | ->]; [exists 1 | exists 2]; simpl;
      rewrite <- ?app_assoc; reflexivity. }
  apply call_sample_inr in Hd as [_ ->].
  apply bind_inl in H as [H | (full & tr4 & Hf & H)].
  { apply lift_inl in H as ->. exists 2. rewrite <- app_assoc. reflexivity. }
  apply lift_inr in Hf as [_ ->].
  apply bind_inl in H as [H | (n & tr5 & Hn & H)].
  { apply lift_inl in H as ->. exists 2. rewrite <- app_assoc. reflexivity. }
  apply lift_inr in Hn as [_ ->].
  apply bind_inl in H as [H | (l1 & tr6 & Hl1 & H)].
  { apply lift_inl in H as ->. exists 2. rewrite <- app_assoc. reflexivity. }
  apply lift_inr in Hl1 as [_ ->].
  apply bind_inl in H as [H | (w & tr7 & Hw & H)].
  { apply call_sample_inl in H as [-> | ->]; [exists 2 | exists 3]; simpl;
      rewrite <- ?app_assoc; reflexivity. }
  apply call_sample_inr in Hw as [_ ->].
  apply bind_inl in H as [H | (l2 & tr8 & Hl2 & H)].
  { apply lift_inl in H as ->. exists 3. rewrite <- !app_assoc. reflexivity. }
  apply lift_inr in Hl2 as [_ ->].
  apply bind_inl in H as [H | (p & tr9 & Hp & H)].
  { apply call_sample_inl in H as [-> | ->]; [exists 3 | exists 4]; simpl;
      rewrite <- ?app_assoc; reflexivity. }
  apply call_sample_inr in Hp as [_ ->].
  apply bind_inl in H as [H | (l3 & tr10 & Hl3 & H)].
  { apply lift_inl in H as ->. exists 4. rewrite <- !app_assoc. reflexivity. }
  apply lift_inr in Hl3 as [_ ->].
  apply bind_inl in H as [H | (u & tr11 & _ & H)].
  { unfold emit in H. inversion H. }
  unfold ret in H. inversion H.
Qed.

Lemma sample_failure_registers_nothing_witness :
  exists k,
    snd (HospitalAdmissions.sample example_latent (Array []) [] [])
    = [] ++ firstn k sample_calls.
Proof.
  exact (sample_failure_registers_nothing example_latent (Array []) [] []
           (ValueError "convolve: inputs cannot be empty") _ eq_refl).
Defined.

(** ** Entries under broadcasting *)

Lemma nth_map_in {A B} (f : A -> B) l i d d' :
  i < length l -> nth i (map f l) d' = f (nth i l d).
Proof.
  intros H. rewrite (nth_indep _ d' (f d)) by (rewrite length_map; exact H).
  apply map_nth.
Qed.

Lemma nth_map2 f xs : forall ys i,
  i < length xs -> i < length ys ->
  nth i (Numpy.map2 f xs ys) 0%Q = f (nth i xs 0%Q) (nth i ys 0%Q).
Proof.
  induction xs as [| x xs IH]; intros [| y ys] [| i]; simpl; intros H1 H2;
    try lia; [reflexivity | apply IH; lia].
Qed.

Lemma multiply_entries_r a xs t :
  Numpy.multiply a (Array xs) = inr (Array t) ->
  length xs <> 1 \/ unit_shape a ->
  forall i, i < length xs -> nth i t 0%Q = (bget a i * nth i xs 0)%Q.
Proof.
  destruct a as [q | zs]; simpl; intros H Hs i Hi.
  - inversion H. apply (nth_map_in (fun y => q * y)%Q xs i 0%Q 0%Q Hi).
  - destruct (Nat.eqb_spec (length zs) (length xs)) as [Heq | Hne].
    + inversion H. rewrite nth_map2 by lia.
      destruct zs as [| z [| z' zs]]; try reflexivity.
      simpl in Heq. replace i with 0 by lia. reflexivity.
    + destruct zs as [| z [| z' zs]].
      * destruct xs as [| x [| x' xs]]; try discriminate; simpl in *; lia.
      * inversion H. apply (nth_map_in (fun y => z * y)%Q xs i 0%Q 0%Q Hi).
      * destruct xs as [| x [| x' xs]]; try discriminate.
        destruct Hs as [Hs | Hs]; [simpl in Hs; lia | discriminate].
Qed.

Lemma multiply_entries_l xs b t :
  Numpy.multiply (Array xs) b = inr (Array t) ->
  length xs <> 1 \/ unit_shape b ->
  forall i, i < length xs -> nth i t 0%Q = (nth i xs 0 * bget b i)%Q.
Proof.
  destruct b as [q | zs]; simpl; intros H Hs i Hi.
  - inversion H. apply (nth_map_in (fun x => x * q)%Q xs i 0%Q 0%Q Hi).
  - destruct (Nat.eqb_spec (length xs) (length zs)) as [Heq | Hne].
    + inversion H. rewrite nth_map2 by lia.
      destruct zs as [| z [| z' zs]]; try reflexivity.
      simpl in Heq. replace i with 0 by lia. reflexivity.
    + destruct xs as [| x [| x' xs]]; [simpl in Hi; lia | |].
      * destruct Hs as [Hs | Hs]; [simpl in Hs; lia |].
        simpl in Hs, Hne. lia.
      * destruct zs as [| z [| z' zs]]; try discriminate.
        inversion H.
        apply (nth_map_in (fun y => y * z)%Q (x :: x' :: xs) i 0%Q 0%Q Hi).
Qed.

(** The steps of the arithmetic when nothing is stretched. *)
Lemma admissions_of_inv r d w p li adm :
  admissions_of r d w p (Array li) = inr adm ->
  no_stretch li r w p ->
  exists ts dl l2 adms,
    d = Array dl /\ dl <> [] /\ li <> [] /\
    Numpy.multiply r (Array li) = inr (Array ts) /\
    length ts = length li /\
    Numpy.multiply (Array (firstn (length li) (Numpy.conv_full ts dl))) w
    = inr (Array l2) /\
    length l2 = length li /\
    Numpy.multiply (Array l2) p = inr (Array adms) /\
    adm = Array adms /\ length adms = length li.
Proof.
  intros Hadm Hns.
  assert (Hs : length li <> 1 \/
               (unit_shape r /\ unit_shape w /\ unit_shape p)).
  { destruct (Nat.eq_dec (length li) 1) as [H1 | H1]; auto. }
  unfold admissions_of in Hadm.
  apply and_then_inr in Hadm as (t & Ht & Hadm).
  apply and_then_inr in Hadm as (full & Hfull & Hadm).
  apply and_then_inr in Hadm as (n & Hn & Hadm).
  apply and_then_inr in Hadm as (l1 & Hl1 & Hadm).
  apply and_then_inr in Hadm as (l2 & Hl2 & Hadm).
  destruct (multiply_shape_r _ _ _ Ht) as (ts & -> & Hlen_t);
    [tauto |].
  apply convolve_inr in Hfull as (xs & ys & Hxs & -> & Hne & Hys & ->).
  inversion Hxs; subst xs. simpl in Hn. inversion Hn; subst n.
  simpl in Hl1. inversion Hl1; subst l1. rewrite Hlen_t in *.
  assert (Hlen1 : length (firstn (length li) (Numpy.conv_full ts ys))
                  = length li).
  { rewrite <- Hlen_t. apply length_firstn_conv_full. exact Hys. }
  destruct (multiply_shape_l _ _ _ Hl2) as (l2s & -> & Hlen2);
    [rewrite Hlen1; tauto |].
  destruct (multiply_shape_l _ _ _ Hadm) as (adms & -> & Hlen3);
    [rewrite Hlen2, Hlen1; tauto |].
  exists ts, ys, l2s, adms. repeat split; try assumption; try congruence.
  intros ->. destruct ts; [apply Hne; reflexivity | discriminate].
Qed.

Lemma admissions_entries r d w p li adm :
  admissions_of r d w p (Array li) = inr adm ->
  no_stretch li r w p ->
  exists dl adms,
    d = Array dl /\ dl <> [] /\ li <> [] /\
    adm = Array adms /\ length adms = length li /\
    forall t, t < length li ->
      nth t adms 0%Q
      = (Numpy.Qsum
           (map (fun tau => nth tau dl 0 * (bget r (t - tau) * nth (t - tau) li 0))
                (seq 0 (S t)))
         * bget w t * bget p t)%Q.
Proof.
  intros Hadm Hns.
  assert (Hs : length li <> 1 \/
               (unit_shape r /\ unit_shape w /\ unit_shape p)).
  { destruct (Nat.eq_dec (length li) 1) as [H1 | H1]; auto. }
  destruct (admissions_of_inv _ _ _ _ _ _ Hadm Hns)
    as (ts & dl & l2 & adms & -> & Hdl & Hli & Ht & Hlen_t & Hl2 & Hlen2
        & Hp & -> & Hlen).
  exists dl, adms. repeat split; try assumption.
  intros t Hlt.
  assert (Hlen1 : length (firstn (length li) (Numpy.conv_full ts dl))
                  = length li).
  { rewrite <- Hlen_t. apply length_firstn_conv_full. exact Hdl. }
  rewrite (multiply_entries_l _ _ _ Hp) by (rewrite Hlen2; tauto || lia).
  rewrite (multiply_entries_l _ _ _ Hl2) by (rewrite Hlen1; tauto || lia).
  f_equal. f_equal.
  rewrite <- Hlen_t, firstn_conv_full by exact Hdl.
  rewrite (nth_map_in _ _ _ 0) by (rewrite length_seq; lia).
  rewrite seq_nth by lia. simpl "+". unfold Numpy.conv_at.
  f_equal. apply map_ext_in. intros tau Htau. apply in_seq in Htau.
  f_equal. apply (multiply_entries_r _ _ _ Ht); [tauto | lia].
Qed.

(** ** The renewal equation *)

Lemma Qsum_app l1 l2 :
  (Numpy.Qsum (l1 ++ l2) == Numpy.Qsum l1 + Numpy.Qsum l2)%Q.
Proof.
  induction l1 as [| x l1 IH]; simpl.
  - ring.
  - rewrite IH. ring.
Qed.

Lemma Qsum_map_Qeq (f g : nat -> Q) (l : list nat) :
  (forall i, In i l -> f i == g i)%Q ->
  (Numpy.Qsum (map f l) == Numpy.Qsum (map g l))%Q.
Proof.
  induction l as [| i l IH]; intros H; simpl.
  - reflexivity.
  - rewrite (H i (or_introl eq_refl)), IH.
    + reflexivity.
    + intros j Hj. apply H. right. exact Hj.
Qed.

Lemma Qsum_seq_trim (f : nat -> Q) n m :
  m <= n ->
  (forall tau, m <= tau -> tau < n -> (f tau == 0)%Q) ->
  (Numpy.Qsum (map f (seq 0 n)) == Numpy.Qsum (map f (seq 0 m)))%Q.
Proof.
  intros Hmn Hzero. replace n with (m + (n - m)) by lia.
  rewrite seq_app, map_app, Qsum_app, (Qsum_map_zero f (seq (0 + m) (n - m))).
  - ring.
  - intros tau Htau. apply in_seq in Htau. apply Hzero; lia.
Qed.

Lemma short_sum_renewal d (I : nat -> Q) t :
  (Numpy.Qsum (map (fun tau => nth tau d 0 * I (t - tau)%nat) (seq 0 (S t)))
   == renewal_sum d I t)%Q.
Proof.
  unfold renewal_sum.
  rewrite (Qsum_seq_trim _ (S t) (Nat.min (S t) (length d))).
  - rewrite (Qsum_seq_trim _ (length d) (Nat.min (S t) (length d))).
    + apply Qsum_map_Qeq. intros tau Htau. apply in_seq in Htau.
      destruct (Nat.leb_spec tau t) as [_ | Hgt]; [reflexivity | lia].
    + lia.
    + intros tau H1 H2.
      destruct (Nat.leb_spec tau t) as [Hle | _]; [lia | reflexivity].
  - lia.
  - intros tau H1 H2. rewrite (nth_overflow d) by lia. ring.
Qed.

(** X3.  The renewal equation of the class docstring.  When [sample] returns
    and broadcasting stretches nothing, entry [t] of the admissions is
    [omega(t) * p(t) * sum over tau = 0 .. T_d of d(tau) * r(t - tau) * I(t - tau)],
    with infections before time 0 counted as 0: the weekday effect [omega],
    the reporting probability [p] and the rate [r] are read at their own index
    or, for a scalar or one-entry sample, as that constant. *)
Theorem sample_renewal_equation :
  forall self li kw tr s tr' r w p,
    HospitalAdmissions.sample self (Array li) kw tr = (inr s, tr') ->
    sampled (HospitalAdmissions.infect_hosp_rate_rv self) kw = inr r ->
    sampled (HospitalAdmissions.day_of_week_effect_rv self) kw = inr w ->
    sampled (HospitalAdmissions.hosp_report_prob_rv self) kw = inr p ->
    no_stretch li r w p ->
    exists d adm,
      sampled (HospitalAdmissions.infection_to_admission_interval_rv self) kw
      = inr (Array d) /\
      latent_hospital_admissions s = Some (Array adm) /\
      length adm = length li /\
      forall t, t < length li ->
        (nth t adm 0
         == renewal_sum d (fun u => bget r u * nth u li 0) t
            * bget w t * bget p t)%Q.
Proof.
  intros self li kw tr s tr' r w p Hrun Hr Hw Hp Hns.
  apply sample_inv in Hrun
    as (r0 & d & w0 & p0 & adm & Hr0 & Hd & Hw0 & Hp0 & Hadm & ->).
  rewrite Hr in Hr0. rewrite Hw in Hw0. rewrite Hp in Hp0.
  inversion Hr0; inversion Hw0; inversion Hp0; subst r0 w0 p0.
  destruct (admissions_entries _ _ _ _ _ _ Hadm Hns)
    as (dl & adms & -> & _ & _ & -> & Hlen & Hent).
  exists dl, adms. repeat split; try assumption.
  intros t Ht. rewrite (Hent t Ht).
  rewrite (short_sum_renewal dl (fun u => bget r u * nth u li 0)%Q t).
  reflexivity.
Qed.

Lemma sample_renewal_equation_witness :
  exists d adm,
    d = [1#2; 1#4; 1#4]%Q /\
    length adm = 3 /\
    (nth 2 adm 0
     == ((1#2) * ((1#10) * 30) + (1#4) * ((1#10) * 20)
         + (1#4) * ((1#10) * 10)) * 1 * 1)%Q.
Proof.
  destruct (sample_renewal_equation
              {| HospitalAdmissions.latent_hospital_admissions_varname :=
                   HospitalAdmissions.default_varname;
                 HospitalAdmissions.infect_hosp_rate_rv :=
                   const_rv (Scalar (1#10));
                 HospitalAdmissions.day_of_week_effect_rv :=
                   const_rv (Scalar 1);
                 HospitalAdmissions.hosp_report_prob_rv := const_rv (Scalar 1);
                 HospitalAdmissions.infection_to_admission_interval_rv :=
                   const_rv (Array [1#2; 1#4; 1#4]%Q) |}
              [10; 20; 30]%Q [] [] _ _ (Scalar (1#10)) (Scalar 1) (Scalar 1)
              eq_refl eq_refl eq_refl eq_refl)
    as (d & adm & Hd & _ & Hlen & Hent).
  - intros H. discriminate H.
  - simpl in Hd. inversion Hd; subst d. exists [1#2; 1#4; 1#4]%Q, adm.
    split; [reflexivity |]. split; [exact Hlen |].
    rewrite (Hent 2) by (simpl; lia).
    unfold renewal_sum. simpl. ring.
Defined.

(** ** Sign *)

Lemma nth_nonneg xs i :
  Forall (fun x => 0 <= x)%Q xs -> (0 <= nth i xs 0)%Q.
Proof.
  intros H. revert i. induction H as [| x xs Hx H IH]; intros [| i]; simpl;
    auto; apply Qle_refl.
Qed.

Lemma Qsum_nonneg l : Forall (fun x => 0 <= x)%Q l -> (0 <= Numpy.Qsum l)%Q.
Proof.
  induction 1 as [| x l Hx H IH]; simpl.
  - apply Qle_refl.
  - replace 0%Q with (0 + 0)%Q by reflexivity. apply Qplus_le_compat; assumption.
Qed.

Lemma Forall_nonneg_map (f : Q -> Q) xs :
  (forall x, 0 <= x -> 0 <= f x)%Q ->
  Forall (fun x => 0 <= x)%Q xs -> Forall (fun x => 0 <= x)%Q (map f xs).
Proof.
  intros Hf. induction 1; simpl; constructor; auto.
Qed.

Lemma Forall_nonneg_map2 xs :
  Forall (fun x => 0 <= x)%Q xs ->
  forall ys, Forall (fun x => 0 <= x)%Q ys ->
  Forall (fun x => 0 <= x)%Q (Numpy.map2 Qmult xs ys).
Proof.
  induction 1 as [| x xs Hx H IH]; intros ys Hys; simpl; [constructor |].
  destruct Hys as [| y ys Hy Hys]; constructor.
  - apply Qmult_le_0_compat; assumption.
  - apply IH. exact Hys.
Qed.

Lemma Forall_nonneg_firstn n xs :
  Forall (fun x => 0 <= x)%Q xs -> Forall (fun x => 0 <= x)%Q (firstn n xs).
Proof.
  intros H. revert n. induction H; intros [| n]; simpl; constructor; auto.
Qed.

Lemma conv_full_nonneg a v :
  Forall (fun x => 0 <= x)%Q a -> Forall (fun x => 0 <= x)%Q v ->
  Forall (fun x => 0 <= x)%Q (Numpy.conv_full a v).
Proof.
  intros Ha Hv. unfold Numpy.conv_full. apply Forall_forall.
  intros x Hx. apply in_map_iff in Hx as (k & <- & _).
  unfold Numpy.conv_at. apply Qsum_nonneg. apply Forall_forall.
  intros y Hy. apply in_map_iff in Hy as (tau & <- & _).
  apply Qmult_le_0_compat; apply nth_nonneg; assumption.
Qed.

Lemma multiply_nonneg a b t :
  nonneg a -> nonneg b -> Numpy.multiply a b = inr t -> nonneg t.
Proof.
  destruct a as [x | xs], b as [y | ys]; simpl; intros Ha Hb H.
  - inversion H. simpl. apply Qmult_le_0_compat; assumption.
  - inversion H. simpl. apply Forall_nonneg_map; [| exact Hb].
    intros z Hz. apply Qmult_le_0_compat; assumption.
  - inversion H. simpl. apply Forall_nonneg_map; [| exact Ha].
    intros z Hz. apply Qmult_le_0_compat; assumption.
  - destruct (length xs =? length ys).
    + inversion H. simpl. apply Forall_nonneg_map2; assumption.
    + destruct xs as [| x [| x' xs]].
      * destruct ys as [| y [| y' ys]]; inversion H. constructor.
      * inversion H. simpl. apply Forall_nonneg_map; [| exact Hb].
        intros z Hz. apply Qmult_le_0_compat; [| exact Hz].
        inversion Ha. assumption.
      * destruct ys as [| y [| y' ys]]; inversion H. simpl.
        apply (Forall_nonneg_map (fun z => z * y)%Q (x :: x' :: xs));
          [| exact Ha].
        intros z Hz. apply Qmult_le_0_compat; [exact Hz |].
        inversion Hb. assumption.
Qed.

(** X4.  Non-negative inputs give non-negative admissions: when the
    infections and the sampled rate, delay, weekday effect and reporting
    probability have no negative entry, neither has the series [sample]
    returns. *)
Theorem sample_nonnegative :
  forall self li kw tr s tr' r d w p,
    HospitalAdmissions.sample self li kw tr = (inr s, tr') ->
    sampled (HospitalAdmissions.infect_hosp_rate_rv self) kw = inr r ->
    sampled (HospitalAdmissions.infection_to_admission_interval_rv self) kw
    = inr d ->
    sampled (HospitalAdmissions.day_of_week_effect_rv self) kw = inr w ->
    sampled (HospitalAdmissions.hosp_report_prob_rv self) kw = inr p ->
    nonneg li -> nonneg r -> nonneg d -> nonneg w -> nonneg p ->
    exists adm, latent_hospital_admissions s = Some adm /\ nonneg adm.
Proof.
  intros self li kw tr s tr' r d w p Hrun Hr Hd Hw Hp Nli Nr Nd Nw Np.
  apply sample_inv in Hrun
    as (r0 & d0 & w0 & p0 & adm & Hr0 & Hd0 & Hw0 & Hp0 & Hadm & ->).
  rewrite Hr in Hr0. rewrite Hd in Hd0. rewrite Hw in Hw0. rewrite Hp in Hp0.
  inversion Hr0; inversion Hd0; inversion Hw0; inversion Hp0.
  subst r0 d0 w0 p0. exists adm. split; [reflexivity |].
  unfold admissions_of in Hadm.
  apply and_then_inr in Hadm as (t & Ht & Hadm).
  apply and_then_inr in Hadm as (full & Hfull & Hadm).
  apply and_then_inr in Hadm as (n & Hn & Hadm).
  apply and_then_inr in Hadm as (l1 & Hl1 & Hadm).
  apply and_then_inr in Hadm as (l2 & Hl2 & Hadm).
  pose proof (multiply_nonneg _ _ _ Nr Nli Ht) as Nt.
  apply convolve_inr in Hfull as (xs & ys & -> & -> & _ & _ & ->).
  simpl in Hl1. inversion Hl1; subst l1.
  assert (Nl1 : nonneg (Array (firstn n (Numpy.conv_full xs ys)))).
  { simpl. apply Forall_nonneg_firstn, conv_full_nonneg; assumption. }
  pose proof (multiply_nonneg _ _ _ Nl1 Nw Hl2) as Nl2.
  exact (multiply_nonneg _ _ _ Nl2 Np Hadm).
Qed.

Lemma sample_nonnegative_witness :
  exists s tr' adm,
    HospitalAdmissions.sample example_latent (Array [100; 0; 300]%Q) [] []
    = (inr s, tr') /\
    latent_hospital_admissions s = Some adm /\
    nonneg adm.
Proof.
  eexists. eexists.
  destruct (sample_nonnegative example_latent (Array [100; 0; 300]%Q) [] []
              _ _ (Scalar (1#10)) (Array [1]%Q) (Scalar 1) (Scalar 1)
              eq_refl eq_refl eq_refl eq_refl eq_refl)
    as (adm & Hadm & Hnonneg);
    try (simpl; discriminate);
    try (repeat (constructor; try discriminate)).
  exists adm. split; [reflexivity |]. split; [exact Hadm | exact Hnonneg].
Defined.

(** ** Causality *)

Ltac same_sampled H H0 :=
  rewrite H in H0; injection H0 as <-.

(** X5.  Earlier admissions do not depend on later infections: when [sample]
    returns on a series and on that series with further entries appended
    (same sampled values, nothing stretched by broadcasting), the admissions
    of the longer series start with the admissions of the shorter one. *)
Theorem sample_prefix_consistent :
  forall self li ext kw tr tr2 s s2 tr' tr2' r w p,
    HospitalAdmissions.sample self (Array li) kw tr = (inr s, tr') ->
    HospitalAdmissions.sample self (Array (li ++ ext)) kw tr2
    = (inr s2, tr2') ->
    sampled (HospitalAdmissions.infect_hosp_rate_rv self) kw = inr r ->
    sampled (HospitalAdmissions.day_of_week_effect_rv self) kw = inr w ->
    sampled (HospitalAdmissions.hosp_report_prob_rv self) kw = inr p ->
    no_stretch li r w p ->
    exists adm adm2,
      latent_hospital_admissions s = Some (Array adm) /\
      latent_hospital_admissions s2 = Some (Array adm2) /\
      length adm2 = length li + length ext /\
      firstn (length li) adm2 = adm.
Proof.
  intros self li ext kw tr tr2 s s2 tr' tr2' r w p Hrun Hrun2 Hr Hw Hp Hns.
  apply sample_inv in Hrun
    as (r0 & d & w0 & p0 & adm & Hr0 & Hd & Hw0 & Hp0 & Hadm & ->).
  same_sampled Hr Hr0. same_sampled Hw Hw0. same_sampled Hp Hp0.
  apply sample_inv in Hrun2
    as (r0 & d0 & w0 & p0 & adm2 & Hr0 & Hd0 & Hw0 & Hp0 & Hadm2 & ->).
  same_sampled Hr Hr0. same_sampled Hw Hw0. same_sampled Hp Hp0.
  same_sampled Hd Hd0.
  destruct (admissions_entries _ _ _ _ _ _ Hadm Hns)
    as (dl & adms & -> & _ & Hli & -> & Hlen & Hent).
  assert (Hns2 : no_stretch (li ++ ext) r w p).
  { intros H1. apply Hns. rewrite length_app in H1.
    destruct li; [contradiction | simpl in *; lia]. }
  destruct (admissions_entries _ _ _ _ _ _ Hadm2 Hns2)
    as (dl2 & adms2 & Hdl & _ & _ & -> & Hlen2 & Hent2).
  inversion Hdl; subst dl2. rewrite length_app in Hlen2.
  exists adms, adms2. repeat split; try assumption.
  apply (nth_ext _ _ 0%Q 0%Q).
  - rewrite length_firstn, Hlen, Hlen2. lia.
  - intros t Ht. rewrite length_firstn, Hlen2 in Ht.
    rewrite nth_firstn. destruct (Nat.ltb_spec t (length li)); [| lia].
    rewrite (Hent t) by lia.
    rewrite (Hent2 t) by (rewrite length_app; lia).
    f_equal. f_equal. f_equal. apply map_ext_in. intros tau Htau.
    apply in_seq in Htau. rewrite app_nth1 by lia. reflexivity.
Qed.

Lemma sample_prefix_consistent_witness :
  exists s tr' s2 tr2' adm adm2,
    HospitalAdmissions.sample
      {| HospitalAdmissions.latent_hospital_admissions_varname :=
           HospitalAdmissions.default_varname;
         HospitalAdmissions.infect_hosp_rate_rv := const_rv (Scalar (1#10));
         HospitalAdmissions.day_of_week_effect_rv := const_rv (Scalar 1);
         HospitalAdmissions.hosp_report_prob_rv := const_rv (Scalar 1);
         HospitalAdmissions.infection_to_admission_interval_rv :=
           const_rv (Array [1#2; 1#2]%Q) |}
      (Array [10; 20]%Q) [] [] = (inr s, tr') /\
    HospitalAdmissions.sample
      {| HospitalAdmissions.latent_hospital_admissions_varname :=
           HospitalAdmissions.default_varname;
         HospitalAdmissions.infect_hosp_rate_rv := const_rv (Scalar (1#10));
         HospitalAdmissions.day_of_week_effect_rv := const_rv (Scalar 1);
         HospitalAdmissions.hosp_report_prob_rv := const_rv (Scalar 1);
         HospitalAdmissions.infection_to_admission_interval_rv :=
           const_rv (Array [1#2; 1#2]%Q) |}
      (Array ([10; 20] ++ [30])%Q) [] [] = (inr s2, tr2') /\
    latent_hospital_admissions s = Some (Array adm) /\
    latent_hospital_admissions s2 = Some (Array adm2) /\
    length adm2 = 3 /\
    firstn 2 adm2 = adm.
Proof.
  eexists. eexists. eexists. eexists.
  destruct (sample_prefix_consistent
              {| HospitalAdmissions.latent_hospital_admissions_varname :=
                   HospitalAdmissions.default_varname;
                 HospitalAdmissions.infect_hosp_rate_rv :=
                   const_rv (Scalar (1#10));
                 HospitalAdmissions.day_of_week_effect_rv :=
                   const_rv (Scalar 1);
                 HospitalAdmissions.hosp_report_prob_rv := const_rv (Scalar 1);
                 HospitalAdmissions.infection_to_admission_interval_rv :=
                   const_rv (Array [1#2; 1#2]%Q) |}
              [10; 20]%Q [30]%Q [] [] [] _ _ _ _
              (Scalar (1#10)) (Scalar 1) (Scalar 1)
              eq_refl eq_refl eq_refl eq_refl eq_refl)
    as (adm & adm2 & Hadm & Hadm2 & Hlen & Hfirst).
  - intros H. discriminate H.
  - exists adm, adm2. split; [reflexivity |]. split; [reflexivity |].
    split; [exact Hadm |]. split; [exact Hadm2 |].
    split; [exact Hlen | exact Hfirst].
Defined.

(** ** The delay window *)

Lemma conv_at_delay_window a d n k :
  k < n -> Numpy.conv_at a (firstn n d) k = Numpy.conv_at a d k.
Proof.
  intros Hk. unfold Numpy.conv_at. f_equal. apply map_ext_in.
  intros tau Htau. apply in_seq in Htau. rewrite nth_firstn.
  destruct (Nat.ltb_spec tau n); [reflexivity | lia].
Qed.

Lemma convolve_run xs ys :
  xs <> [] -> ys <> [] ->
  Numpy.convolve (Array xs) (Array ys) = inr (Array (Numpy.conv_full xs ys)).
Proof.
  destruct xs as [| x xs]; [contradiction |].
  destruct ys as [| y ys]; [contradiction |]. reflexivity.
Qed.

Lemma firstn_conv_full_delay_window a d :
  a <> [] -> d <> [] ->
  firstn (length a) (Numpy.conv_full a (firstn (length a) d))
  = firstn (length a) (Numpy.conv_full a d).
Proof.
  intros Ha Hd.
  assert (Hd' : firstn (length a) d <> []).
  { destruct a; [contradiction |]. destruct d; [contradiction |].
    discriminate. }
  rewrite !firstn_conv_full by assumption.
  apply map_ext_in. intros k Hk. apply in_seq in Hk.
  apply conv_at_delay_window. lia.
Qed.

Lemma admissions_of_delay_window r d w p li :
  (length li = 1 -> unit_shape r) ->
  admissions_of r (Array (firstn (length li) d)) w p (Array li)
  = admissions_of r (Array d) w p (Array li).
Proof.
  intros Hr. unfold admissions_of.
  destruct (Numpy.multiply r (Array li)) as [e | t] eqn:Ht; [reflexivity |].
  destruct (multiply_shape_r _ _ _ Ht) as (ts & -> & Hlen).
  { destruct (Nat.eq_dec (length li) 1); auto. }
  rewrite <- Hlen.
  rewrite !(and_then_run (inr (Array ts)) _ (Array ts) eq_refl).
  destruct ts as [| x ts]; [destruct d; reflexivity |].
  destruct d as [| y d]; [reflexivity |].
  assert (Hts : x :: ts <> []) by discriminate.
  assert (Hd : y :: d <> []) by discriminate.
  assert (Hd' : firstn (length (x :: ts)) (y :: d) <> []) by discriminate.
  rewrite (and_then_run _ _ _ (convolve_run _ _ Hts Hd')).
  rewrite (and_then_run _ _ _ (convolve_run _ _ Hts Hd)).
  rewrite !(and_then_run (Numpy.shape0 (Array (x :: ts))) _
              (length (x :: ts)) eq_refl).
  unfold Numpy.take.
  rewrite (firstn_conv_full_delay_window _ _ Hts Hd). reflexivity.
Qed.

(** X6.  Delay entries beyond the window are never used: with a rate sample
    that is not stretched against a one-entry series, [sample] returns the
    same sample and leaves the same log whether the delay process samples
    [d] or only the first [len(latent_infections)] entries of [d]. *)
Theorem sample_delay_window :
  forall name rate dow prob delay delay2 li kw tr d r,
    sampled rate kw = inr r ->
    (length li = 1 -> unit_shape r) ->
    sampled delay kw = inr (Array d) ->
    sampled delay2 kw = inr (Array (firstn (length li) d)) ->
    forall s tr',
      HospitalAdmissions.sample
        {| HospitalAdmissions.latent_hospital_admissions_varname := name;
           HospitalAdmissions.infect_hosp_rate_rv := rate;
           HospitalAdmissions.day_of_week_effect_rv := dow;
           HospitalAdmissions.hosp_report_prob_rv := prob;
           HospitalAdmissions.infection_to_admission_interval_rv := delay |}
        (Array li) kw tr = (inr s, tr') <->
      HospitalAdmissions.sample
        {| HospitalAdmissions.latent_hospital_admissions_varname := name;
           HospitalAdmissions.infect_hosp_rate_rv := rate;
           HospitalAdmissions.day_of_week_effect_rv := dow;
           HospitalAdmissions.hosp_report_prob_rv := prob;
           HospitalAdmissions.infection_to_admission_interval_rv := delay2 |}
        (Array li) kw tr = (inr s, tr').
Proof.
  intros name rate dow prob delay delay2 li kw tr d r Hr Hshape Hd Hd2 s tr'.
  split; intros Hrun.
  - pose proof (sample_inv_log _ _ _ _ _ _ Hrun) as (r1 & adm1 & _ & Hs & Htr).
    apply sample_inv in Hrun
      as (r0 & d0 & w & p & adm & Hr0 & Hd0 & Hw & Hp & Hadm & Hs').
    simpl in *. same_sampled Hr Hr0. same_sampled Hd Hd0.
    rewrite Hs in Hs'. inversion Hs'; subst.
    rewrite <- (admissions_of_delay_window _ _ _ _ _ Hshape) in Hadm.
    eapply sample_run; simpl; eassumption.
  - pose proof (sample_inv_log _ _ _ _ _ _ Hrun) as (r1 & adm1 & _ & Hs & Htr).
    apply sample_inv in Hrun
      as (r0 & d0 & w & p & adm & Hr0 & Hd0 & Hw & Hp & Hadm & Hs').
    simpl in *. same_sampled Hr Hr0. same_sampled Hd2 Hd0.
    rewrite Hs in Hs'. inversion Hs'; subst.
    rewrite (admissions_of_delay_window _ _ _ _ _ Hshape) in Hadm.
    eapply sample_run; simpl; eassumption.
Qed.

Lemma sample_delay_window_witness :
  exists s tr',
    HospitalAdmissions.sample
      {| HospitalAdmissions.latent_hospital_admissions_varname :=
           HospitalAdmissions.default_varname;
         HospitalAdmissions.infect_hosp_rate_rv := const_rv (Scalar (1#10));
         HospitalAdmissions.day_of_week_effect_rv := const_rv (Scalar 1);
         HospitalAdmissions.hosp_report_prob_rv := const_rv (Scalar 1);
         HospitalAdmissions.infection_to_admission_interval_rv :=
           const_rv (Array [1#2; 1#4; 1#4]%Q) |}
      (Array [10; 20]%Q) [] [] = (inr s, tr') /\
    HospitalAdmissions.sample
      {| HospitalAdmissions.latent_hospital_admissions_varname :=
           HospitalAdmissions.default_varname;
         HospitalAdmissions.infect_hosp_rate_rv := const_rv (Scalar (1#10));
         HospitalAdmissions.day_of_week_effect_rv := const_rv (Scalar 1);
         HospitalAdmissions.hosp_report_prob_rv := const_rv (Scalar 1);
         HospitalAdmissions.infection_to_admission_interval_rv :=
           const_rv (Array [1#2; 1#4]%Q) |}
      (Array [10; 20]%Q) [] [] = (inr s, tr').
Proof.
  eexists. eexists. split; [reflexivity |].
  apply (sample_delay_window HospitalAdmissions.default_varname
           (const_rv (Scalar (1#10))) (const_rv (Scalar 1))
           (const_rv (Scalar 1)) (const_rv (Array [1#2; 1#4; 1#4]%Q))
           (const_rv (Array [1#2; 1#4]%Q)) [10; 20]%Q [] []
           [1#2; 1#4; 1#4]%Q (Scalar (1#10)) eq_refl (fun _ => I)
           eq_refl eq_refl).
  reflexivity.
Defined.

(** ** A delay concentrated on one lag *)

Lemma Qsum_single (f : nat -> Q) k n :
  (forall tau, tau <> k -> f tau == 0)%Q ->
  (Numpy.Qsum (map f (seq 0 n)) == if k <? n then f k else 0)%Q.
Proof.
  intros Hzero. induction n as [| n IH].
  - reflexivity.
  - rewrite seq_S, map_app, Qsum_app, IH. simpl.
    destruct (Nat.ltb_spec k n) as [Hlt | Hge].
    + destruct (Nat.ltb_spec k (S n)); [| lia].
      rewrite (Hzero n) by lia. ring.
    + destruct (Nat.ltb_spec k (S n)) as [Hlt' | Hge'].
      * replace n with k by lia. ring.
      * rewrite (Hzero n) by lia. ring.
Qed.

Lemma nth_lag_delay k tau :
  nth tau (lag_delay k) 0%Q = if tau =? k then 1%Q else 0%Q.
Proof.
  unfold lag_delay. destruct (Nat.eqb_spec tau k) as [-> | Hne].
  - rewrite app_nth2 by (rewrite repeat_length; lia).
    rewrite repeat_length, Nat.sub_diag. reflexivity.
  - destruct (Nat.lt_ge_cases tau k) as [Hlt | Hge].
    + rewrite app_nth1 by (rewrite repeat_length; exact Hlt).
      apply nth_repeat_lt. exact Hlt.
    + apply nth_overflow. rewrite length_app, repeat_length. simpl. lia.
Qed.

(** X7.  A delay distribution with all its mass on lag [k] shifts the series
    by [k] steps: when [sample] returns and nothing is stretched, entry [t]
    of the admissions is 0 for [t < k] and
    [r(t - k) * I(t - k) * omega(t) * p(t)] from [t = k] on; the last [k]
    rate-scaled infections are dropped. *)
Theorem sample_lag_delay :
  forall self li k kw tr s tr' r w p,
    HospitalAdmissions.sample self (Array li) kw tr = (inr s, tr') ->
    sampled (HospitalAdmissions.infect_hosp_rate_rv self) kw = inr r ->
    sampled (HospitalAdmissions.infection_to_admission_interval_rv self) kw
    = inr (Array (lag_delay k)) ->
    sampled (HospitalAdmissions.day_of_week_effect_rv self) kw = inr w ->
    sampled (HospitalAdmissions.hosp_report_prob_rv self) kw = inr p ->
    no_stretch li r w p ->
    exists adm,
      latent_hospital_admissions s = Some (Array adm) /\
      length adm = length li /\
      forall t, t < length li ->
        (nth t adm 0
         == (if k <=? t then bget r (t - k) * nth (t - k) li 0 else 0)
            * bget w t * bget p t)%Q.
Proof.
  intros self li k kw tr s tr' r w p Hrun Hr Hd Hw Hp Hns.
  apply sample_inv in Hrun
    as (r0 & d0 & w0 & p0 & adm & Hr0 & Hd0 & Hw0 & Hp0 & Hadm & ->).
  same_sampled Hr Hr0. same_sampled Hd Hd0.
  same_sampled Hw Hw0. same_sampled Hp Hp0.
  destruct (admissions_entries _ _ _ _ _ _ Hadm Hns)
    as (dl & adms & Hdl & _ & _ & -> & Hlen & Hent).
  inversion Hdl; subst dl.
  exists adms. repeat split; try assumption.
  intros t Ht. rewrite (Hent t Ht).
  rewrite (Qsum_single _ k (S t)).
  - rewrite nth_lag_delay, Nat.eqb_refl.
    destruct (Nat.leb_spec k t) as [Hle | Hgt].
    + destruct (Nat.ltb_spec k (S t)); [ring | lia].
    + destruct (Nat.ltb_spec k (S t)); [lia | ring].
  - intros tau Hne. rewrite nth_lag_delay.
    destruct (Nat.eqb_spec tau k) as [Heq | _]; [contradiction | ring].
Qed.

Lemma sample_lag_delay_witness :
  exists adm,
    length adm = 3 /\
    (nth 0 adm 0 == 0)%Q /\ (nth 2 adm 0 == 2)%Q.
Proof.
  destruct (sample_lag_delay
              {| HospitalAdmissions.latent_hospital_admissions_varname :=
                   HospitalAdmissions.default_varname;
                 HospitalAdmissions.infect_hosp_rate_rv :=
                   const_rv (Scalar (1#10));
                 HospitalAdmissions.day_of_week_effect_rv :=
                   const_rv (Scalar 1);
                 HospitalAdmissions.hosp_report_prob_rv := const_rv (Scalar 1);
                 HospitalAdmissions.infection_to_admission_interval_rv :=
                   const_rv (Array [0; 1]%Q) |}
              [10; 20; 30]%Q 1 [] [] _ _ (Scalar (1#10)) (Scalar 1) (Scalar 1)
              eq_refl eq_refl eq_refl eq_refl eq_refl)
    as (adm & _ & Hlen & Hent).
  - intros H. discriminate H.
  - exists adm. split; [exact Hlen |]. split.
    + rewrite (Hent 0) by (simpl; lia). simpl. ring.
    + rewrite (Hent 2) by (simpl; lia). simpl. ring.
Defined.

(** ** Shapes decide the outcome *)


Lemma multiply_same_shape a a' b b' :
  same_shape a a' -> same_shape b b' ->
  shape_result (Numpy.multiply a b) (Numpy.multiply a' b').
Proof.
  destruct a as [x | xs], a' as [x' | xs'], b as [y | ys], b' as [y' | ys'];
    simpl; try contradiction; intros Ha Hb; trivial;
    rewrite ?length_map; try assumption.
  rewrite <- Ha, <- Hb.
  destruct (length xs =? length ys).
  - simpl. rewrite !length_map2. lia.
  - destruct xs as [| x1 [| x2 xs]], xs' as [| x1' [| x2' xs']];
      simpl in Ha; try discriminate;
      destruct ys as [| y1 [| y2 ys]], ys' as [| y1' [| y2' ys']];
      simpl in Hb; try discriminate; simpl; rewrite ?length_map;
      try reflexivity; simpl; lia.
Qed.

Lemma convolve_same_shape a a' d d' :
  same_shape a a' -> same_shape d d' ->
  shape_result (Numpy.convolve a d) (Numpy.convolve a' d').
Proof.
  destruct a as [x | xs], a' as [x' | xs'], d as [y | ys], d' as [y' | ys'];
    simpl; try contradiction; intros Ha Hd; trivial.
  destruct xs as [| x1 xs], xs' as [| x1' xs']; try discriminate;
    [reflexivity |].
  destruct ys as [| y1 ys], ys' as [| y1' ys']; try discriminate;
    [reflexivity |].
  simpl. rewrite !length_conv_full. simpl in *. lia.
Qed.

Lemma shape0_same_shape a a' :
  same_shape a a' -> Numpy.shape0 a = Numpy.shape0 a'.
Proof.
  destruct a, a'; simpl; try contradiction; intros H; [reflexivity |].
  rewrite H. reflexivity.
Qed.

Lemma take_same_shape n a a' :
  same_shape a a' -> shape_result (Numpy.take n a) (Numpy.take n a').
Proof.
  destruct a, a'; simpl; try contradiction; intros H; [reflexivity |].
  rewrite !length_firstn, H. reflexivity.
Qed.

Lemma and_then_same_shape (r r' : exn + value) (k k' : value -> exn + value) :
  shape_result r r' ->
  (forall v v', same_shape v v' -> shape_result (k v) (k' v')) ->
  shape_result (and_then r k) (and_then r' k').
Proof.
  destruct r as [e | v], r' as [e' | v']; simpl; try contradiction; auto.
Qed.

Lemma admissions_of_same_shape r r' d d' w w' p p' li li' :
  same_shape r r' -> same_shape d d' -> same_shape w w' ->
  same_shape p p' -> same_shape li li' ->
  shape_result (admissions_of r d w p li) (admissions_of r' d' w' p' li').
Proof.
  intros Hr Hd Hw Hp Hli. unfold admissions_of.
  apply and_then_same_shape; [apply multiply_same_shape; assumption |].
  intros t t' Ht.
  apply and_then_same_shape; [apply convolve_same_shape; assumption |].
  intros full full' Hfull. rewrite <- (shape0_same_shape t t' Ht).
  destruct (Numpy.shape0 t) as [e | n]; simpl; [reflexivity |].
  apply and_then_same_shape; [apply take_same_shape; assumption |].
  intros l l' Hl.
  apply and_then_same_shape; [apply multiply_same_shape; assumption |].
  intros l2 l2' Hl2. apply multiply_same_shape; assumption.
Qed.

Lemma sample_fst self li kw tr r d w p :
  sampled (HospitalAdmissions.infect_hosp_rate_rv self) kw = inr r ->
  sampled (HospitalAdmissions.infection_to_admission_interval_rv self) kw
    = inr d ->
  sampled (HospitalAdmissions.day_of_week_effect_rv self) kw = inr w ->
  sampled (HospitalAdmissions.hosp_report_prob_rv self) kw = inr p ->
  fst (HospitalAdmissions.sample self li kw tr)
  = and_then (admissions_of r d w p li)
             (fun adm => inr {| infection_hosp_rate := Some r;
                                latent_hospital_admissions := Some adm |}).
Proof.
  intros Hr Hd Hw Hp.
  destruct (admissions_of r d w p li) as [e | adm] eqn:Hadm.
  - unfold admissions_of in Hadm. unfold HospitalAdmissions.sample.
    rewrite (bind_run _ _ _ _ _ (call_sample_run _ _ _ _ _ Hr)).
    destruct (Numpy.multiply r li) as [e1 | t]; simpl in Hadm;
      [inversion Hadm; reflexivity |].
    rewrite (bind_lift_run _ _ _ _ eq_refl).
    rewrite (bind_run _ _ _ _ _ (call_sample_run _ _ _ _ _ Hd)).
    destruct (Numpy.convolve t d) as [e2 | full]; simpl in Hadm;
      [inversion Hadm; reflexivity |].
    rewrite (bind_lift_run _ _ _ _ eq_refl).
    destruct (Numpy.shape0 t) as [e3 | n]; simpl in Hadm;
      [inversion Hadm; reflexivity |].
    rewrite (bind_lift_run _ _ _ _ eq_refl).
    destruct (Numpy.take n full) as [e4 | l1]; simpl in Hadm;
      [inversion Hadm; reflexivity |].
    rewrite (bind_lift_run _ _ _ _ eq_refl).
    rewrite (bind_run _ _ _ _ _ (call_sample_run _ _ _ _ _ Hw)).
    destruct (Numpy.multiply l1 w) as [e5 | l2]; simpl in Hadm;
      [inversion Hadm; reflexivity |].
    rewrite (bind_lift_run _ _ _ _ eq_refl).
    rewrite (bind_run _ _ _ _ _ (call_sample_run _ _ _ _ _ Hp)).
    destruct (Numpy.multiply l2 p) as [e6 | l3]; simpl in Hadm;
      [inversion Hadm; reflexivity | discriminate].
  - rewrite (sample_run _ _ _ tr _ _ _ _ _ Hr Hd Hw Hp Hadm). reflexivity.
Qed.

(** X8.  Whether [sample] raises, and which exception, is decided by the
    shapes alone: two calls whose infections and whose four sampled values
    have pairwise the same shape either raise the same exception or both
    return, with admissions of one shape. *)
Theorem sample_outcome_by_shape :
  forall self self' li li' kw kw' tr tr' r r' d d' w w' p p',
    sampled (HospitalAdmissions.infect_hosp_rate_rv self) kw = inr r ->
    sampled (HospitalAdmissions.infect_hosp_rate_rv self') kw' = inr r' ->
    sampled (HospitalAdmissions.infection_to_admission_interval_rv self) kw
    = inr d ->
    sampled (HospitalAdmissions.infection_to_admission_interval_rv self') kw'
    = inr d' ->
    sampled (HospitalAdmissions.day_of_week_effect_rv self) kw = inr w ->
    sampled (HospitalAdmissions.day_of_week_effect_rv self') kw' = inr w' ->
    sampled (HospitalAdmissions.hosp_report_prob_rv self) kw = inr p ->
    sampled (HospitalAdmissions.hosp_report_prob_rv self') kw' = inr p' ->
    same_shape r r' -> same_shape d d' -> same_shape w w' ->
    same_shape p p' -> same_shape li li' ->
    match fst (HospitalAdmissions.sample self li kw tr),
          fst (HospitalAdmissions.sample self' li' kw' tr') with
    | inl e, inl e' => e = e'
    | inr s, inr s' =>
        exists adm adm',
          latent_hospital_admissions s = Some adm /\
          latent_hospital_admissions s' = Some adm' /\
          same_shape adm adm'
    | _, _ => False
    end.
Proof.
  intros self self' li li' kw kw' tr tr' r r' d d' w w' p p'
         Hr Hr' Hd Hd' Hw Hw' Hp Hp' Sr Sd Sw Sp Sli.
  rewrite (sample_fst self li kw tr r d w p Hr Hd Hw Hp).
  rewrite (sample_fst self' li' kw' tr' r' d' w' p' Hr' Hd' Hw' Hp').
  pose proof (admissions_of_same_shape r r' d d' w w' p p' li li'
                Sr Sd Sw Sp Sli) as H.
  destruct (admissions_of r d w p li) as [e | adm],
           (admissions_of r' d' w' p' li') as [e' | adm']; simpl in *;
    try contradiction; [exact H |].
  exists adm, adm'. repeat split; auto.
Qed.

Lemma sample_outcome_by_shape_witness :
  fst (HospitalAdmissions.sample
         {| HospitalAdmissions.latent_hospital_admissions_varname :=
              HospitalAdmissions.default_varname;
            HospitalAdmissions.infect_hosp_rate_rv := const_rv (Scalar (1#10));
            HospitalAdmissions.day_of_week_effect_rv :=
              const_rv (Array [1; 1; 1; 1; 1; 1; 1]%Q);
            HospitalAdmissions.hosp_report_prob_rv := const_rv (Scalar 1);
            HospitalAdmissions.infection_to_admission_interval_rv :=
              const_rv (Array [1#2; 1#2]%Q) |}
         (Array [10; 20; 30]%Q) [] [])
  = inl BroadcastError /\
  fst (HospitalAdmissions.sample
         {| HospitalAdmissions.latent_hospital_admissions_varname :=
              HospitalAdmissions.default_varname;
            HospitalAdmissions.infect_hosp_rate_rv := const_rv (Scalar (3#10));
            HospitalAdmissions.day_of_week_effect_rv :=
              const_rv (Array [2; 1; 1; 1; 1; 1; 0]%Q);
            HospitalAdmissions.hosp_report_prob_rv := const_rv (Scalar (1#2));
            HospitalAdmissions.infection_to_admission_interval_rv :=
              const_rv (Array [1#4; 3#4]%Q) |}
         (Array [0; 5; 7]%Q) [] [])
  = inl BroadcastError.
Proof.
  pose proof (sample_outcome_by_shape
                {| HospitalAdmissions.latent_hospital_admissions_varname :=
                     HospitalAdmissions.default_varname;
                   HospitalAdmissions.infect_hosp_rate_rv :=
                     const_rv (Scalar (1#10));
                   HospitalAdmissions.day_of_week_effect_rv :=
                     const_rv (Array [1; 1; 1; 1; 1; 1; 1]%Q);
                   HospitalAdmissions.hosp_report_prob_rv :=
                     const_rv (Scalar 1);
                   HospitalAdmissions.infection_to_admission_interval_rv :=
                     const_rv (Array [1#2; 1#2]%Q) |}
                {| HospitalAdmissions.latent_hospital_admissions_varname :=
                     HospitalAdmissions.default_varname;
                   HospitalAdmissions.infect_hosp_rate_rv :=
                     const_rv (Scalar (3#10));
                   HospitalAdmissions.day_of_week_effect_rv :=
                     const_rv (Array [2; 1; 1; 1; 1; 1; 0]%Q);
                   HospitalAdmissions.hosp_report_prob_rv :=
                     const_rv (Scalar (1#2));
                   HospitalAdmissions.infection_to_admission_interval_rv :=
                     const_rv (Array [1#4; 3#4]%Q) |}
                (Array [10; 20; 30]%Q) (Array [0; 5; 7]%Q) [] [] [] []
                _ _ _ _ _ _ _ _
                eq_refl eq_refl eq_refl eq_refl eq_refl eq_refl eq_refl eq_refl
                I eq_refl eq_refl I eq_refl) as H.
  split; [reflexivity |].
  destruct (fst (HospitalAdmissions.sample _ (Array [0; 5; 7]%Q) [] []))
    as [e' | s'] eqn:E.
  - simpl in H. symmetry. f_equal. exact H.
  - simpl in H. contradiction.
Defined.

(** ** Superposition *)




(** ** Scaling any of the sampled values *)

Section ScalingRight.

Variable c : Q.

Local Abbreviation R := (fun x y : Q => (y == c * x)%Q).







End ScalingRight.








(** * Further properties of [HospitalAdmissionsModel.sample] *)

Lemma resolve_n_timepoints_run n data tr nt A (k : Z -> M A) :
  resolve_n_timepoints n data = Some nt ->
  bind (match n, data with
        | None, None => raise (ValueError HospitalAdmissionsModel.msg_neither)
        | Some _, Some _ => raise (ValueError HospitalAdmissionsModel.msg_both)
        | None, Some data => ret (Z.of_nat (length data))
        | Some n, None => ret n
        end) k tr
  = k nt tr.
Proof.
  destruct n as [n |], data as [d |]; simpl; intros H; inversion H;
    reflexivity.
Qed.

(** X11.  An exception of the inner renewal model reaches the caller
    unchanged, and nothing downstream has run: the log holds the renewal call
    and no call of the latent admissions component or of the observation
    process. *)
Theorem sample_renewal_error :
  forall self n data padding kw tr nt e,
    resolve_n_timepoints n data = Some nt ->
    HospitalAdmissionsModel.basic_renewal self nt padding kw = inl e ->
    HospitalAdmissionsModel.sample self n data padding kw tr
    = (inl e, tr ++ [RenewalSampleCall nt padding]).
Proof.
  intros self n data padding kw tr nt e Hnt Hbm.
  unfold HospitalAdmissionsModel.sample.
  rewrite (resolve_n_timepoints_run n data tr nt _ _ Hnt).
  unfold HospitalAdmissionsModel.basic_renewal_sample, bind, emit, lift.
  rewrite Hbm. reflexivity.
Qed.

Lemma sample_renewal_error_witness :
  HospitalAdmissionsModel.sample
    {| HospitalAdmissionsModel.basic_renewal := fun n _ _ =>
         if (n <? 0)%Z then inl (ValueError "negative")
         else inr {| basic_Rt := Scalar 1;
                     basic_latent_infections := Array [] |};
       HospitalAdmissionsModel.latent_hosp_admissions_rv :=
         HospitalAdmissions.sample example_latent;
       HospitalAdmissionsModel.hosp_admission_obs_process_rv := None |}
    (Some (-1)%Z) None 0 [] []
  = (inl (ValueError "negative"), [] ++ [RenewalSampleCall (-1) 0]).
Proof.
  apply sample_renewal_error; reflexivity.
Defined.

(** X12.  An exception of the latent admissions component reaches the caller
    unchanged, with the log as that component left it: the observation
    process is not called. *)
Theorem sample_latent_error :
  forall self n data padding kw tr nt bm e tr1,
    resolve_n_timepoints n data = Some nt ->
    HospitalAdmissionsModel.basic_renewal self nt padding kw = inr bm ->
    HospitalAdmissionsModel.latent_hosp_admissions_rv self
      (basic_latent_infections bm) kw
      (tr ++ [RenewalSampleCall nt padding]) = (inl e, tr1) ->
    HospitalAdmissionsModel.sample self n data padding kw tr = (inl e, tr1).
Proof.
  intros self n data padding kw tr nt bm e tr1 Hnt Hbm Hlat.
  unfold HospitalAdmissionsModel.sample.
  rewrite (resolve_n_timepoints_run n data tr nt _ _ Hnt).
  unfold HospitalAdmissionsModel.basic_renewal_sample,
    HospitalAdmissionsModel.sample_latent_hosp_admissions, bind, emit, lift.
  rewrite Hbm, Hlat. reflexivity.
Qed.

Lemma sample_latent_error_witness :
  HospitalAdmissionsModel.sample (example_model 0 true) (Some 0%Z) None
                                 0 [] []
  = (inl (ValueError "convolve: inputs cannot be empty"),
     [RenewalSampleCall 0 0; SampleCall "infect_hosp_rate_rv";
      SampleCall "infection_to_admission_interval_rv"]).
Proof.
  eapply (sample_latent_error (example_model 0 true) (Some 0%Z) None 0%Z
            [] [] 0%Z); reflexivity.
Defined.

(** X13.  When the latent admissions component returns no series (the field
    is absent or holds a 0-d value), [sample] raises a type error at
    [len(latent_hosp_admissions)], before the observation process is
    looked at: this also happens for a model without observation process. *)
Theorem sample_latent_series_missing :
  forall self n data padding kw tr nt bm hosp tr1,
    resolve_n_timepoints n data = Some nt ->
    HospitalAdmissionsModel.basic_renewal self nt padding kw = inr bm ->
    HospitalAdmissionsModel.latent_hosp_admissions_rv self
      (basic_latent_infections bm) kw
      (tr ++ [RenewalSampleCall nt padding]) = (inr hosp, tr1) ->
    (forall xs, latent_hospital_admissions hosp <> Some (Array xs)) ->
    HospitalAdmissionsModel.sample self n data padding kw tr
    = (inl TypeError, tr1).
Proof.
  intros self n data padding kw tr nt bm hosp tr1 Hnt Hbm Hlat Hmiss.
  unfold HospitalAdmissionsModel.sample.
  rewrite (resolve_n_timepoints_run n data tr nt _ _ Hnt).
  unfold HospitalAdmissionsModel.basic_renewal_sample,
    HospitalAdmissionsModel.sample_latent_hosp_admissions,
    HospitalAdmissionsModel.as_series, bind, emit, lift.
  rewrite Hbm, Hlat.
  destruct (latent_hospital_admissions hosp) as [[q | xs] |];
    try reflexivity.
  exfalso. apply (Hmiss xs). reflexivity.
Qed.

Lemma sample_latent_series_missing_witness :
  HospitalAdmissionsModel.sample
    {| HospitalAdmissionsModel.basic_renewal := fun n _ _ =>
         inr {| basic_Rt := Scalar 1;
                basic_latent_infections := Array [100%Q] |};
       HospitalAdmissionsModel.latent_hosp_admissions_rv := fun li _ =>
         ret {| infection_hosp_rate := Some (Scalar (1#10));
                latent_hospital_admissions := None |};
       HospitalAdmissionsModel.hosp_admission_obs_process_rv := None |}
    (Some 1%Z) None 0 [] []
  = (inl TypeError, [RenewalSampleCall 1 0]).
Proof.
  eapply (sample_latent_series_missing _ (Some 1%Z) None 0%Z [] [] 1%Z);
    try reflexivity.
  intros xs H. discriminate H.
Defined.

Lemma model_sample_simulate self obs_process n padding kw tr bm hosp lat tr1 :
  HospitalAdmissionsModel.hosp_admission_obs_process_rv self
  = Some obs_process ->
  HospitalAdmissionsModel.basic_renewal self n padding kw = inr bm ->
  HospitalAdmissionsModel.latent_hosp_admissions_rv self
    (basic_latent_infections bm) kw (tr ++ [RenewalSampleCall n padding])
  = (inr hosp, tr1) ->
  latent_hospital_admissions hosp = Some (Array lat) ->
  HospitalAdmissionsModel.sample self (Some n) None padding kw tr
  = (match obs_process lat None kw with
     | inl e => inl e
     | inr o =>
         inr {| Rt := Some (basic_Rt bm);
                latent_infections := Some (basic_latent_infections bm);
                hm_infection_hosp_rate := infection_hosp_rate hosp;
                latent_hosp_admissions := Some (Array lat);
                observed_hosp_admissions := Some o |}
     end,
     tr1 ++ [ObsProcessCall lat None]).
Proof.
  intros Hobs Hbm Hhosp Hlat.
  unfold HospitalAdmissionsModel.sample,
    HospitalAdmissionsModel.basic_renewal_sample,
    HospitalAdmissionsModel.sample_latent_hosp_admissions,
    HospitalAdmissionsModel.sample_admissions_process,
    HospitalAdmissionsModel.as_series.
  unfold bind, ret, emit, lift. rewrite Hbm, Hhosp, Hlat, Hobs.
  destruct (obs_process lat None kw); reflexivity.
Qed.

(** X14.  Simulate mode.  With an observation process and no data, the
    observation process is called once, after the latent component, with the
    whole latent admissions series as mean, whatever the padding, and with
    no observations; what it returns is the [observed_hosp_admissions] of the
    result, and what it raises is raised. *)
Theorem sample_simulate_mode :
  forall self obs_process n padding kw tr bm hosp lat tr1,
    HospitalAdmissionsModel.hosp_admission_obs_process_rv self
    = Some obs_process ->
    HospitalAdmissionsModel.basic_renewal self n padding kw = inr bm ->
    HospitalAdmissionsModel.latent_hosp_admissions_rv self
      (basic_latent_infections bm) kw (tr ++ [RenewalSampleCall n padding])
    = (inr hosp, tr1) ->
    latent_hospital_admissions hosp = Some (Array lat) ->
    HospitalAdmissionsModel.sample self (Some n) None padding kw tr
    = (match obs_process lat None kw with
       | inl e => inl e
       | inr o =>
           inr {| Rt := Some (basic_Rt bm);
                  latent_infections := Some (basic_latent_infections bm);
                  hm_infection_hosp_rate := infection_hosp_rate hosp;
                  latent_hosp_admissions := Some (Array lat);
                  observed_hosp_admissions := Some o |}
       end,
       tr1 ++ [ObsProcessCall lat None]).
Proof.
  intros self obs_process n padding kw tr bm hosp lat tr1
         Hobs Hbm Hhosp Hlat.
  unfold HospitalAdmissionsModel.sample,
    HospitalAdmissionsModel.basic_renewal_sample,
    HospitalAdmissionsModel.sample_latent_hosp_admissions,
    HospitalAdmissionsModel.sample_admissions_process,
    HospitalAdmissionsModel.as_series.
  unfold bind, ret, emit, lift. rewrite Hbm, Hhosp, Hlat, Hobs.
  destruct (obs_process lat None kw); reflexivity.
Qed.

Lemma sample_simulate_mode_witness :
  exists lat tr1,
    length lat = 5 /\
    snd (HospitalAdmissionsModel.sample (example_model 2 true) (Some 3%Z)
           None 2 [] [])
    = tr1 ++ [ObsProcessCall lat None] /\
    fst (HospitalAdmissionsModel.sample (example_model 2 true) (Some 3%Z)
           None 2 [] [])
    = inr {| Rt := Some (Scalar 1);
             latent_infections := Some (Array (repeat 100%Q 5));
             hm_infection_hosp_rate := Some (Scalar (1#10));
             latent_hosp_admissions := Some (Array lat);
             observed_hosp_admissions := Some (map Fin lat) |}.
Proof.
  pose proof (sample_simulate_mode (example_model 2 true) _ 3%Z 2%Z [] []
                _ _ _ _ eq_refl eq_refl eq_refl eq_refl) as H.
  eexists. eexists. split; [| split].
  - shelve.
  - rewrite H. reflexivity.
  - rewrite H. reflexivity.
  Unshelve. reflexivity.
Defined.

(** X15.  Whenever [sample] returns, [infection_hosp_rate] and
    [latent_hosp_admissions] of the result are the two fields the latent
    admissions component returned when it was called, right after the
    renewal model, on that model's [latent_infections]; the latter is the
    whole 1-d series, in fit mode too. *)
Theorem sample_passes_latent_through :
  forall self n data padding kw tr s tr',
    HospitalAdmissionsModel.sample self n data padding kw tr = (inr s, tr') ->
    exists nt bm hosp lat tr1,
      resolve_n_timepoints n data = Some nt /\
      HospitalAdmissionsModel.basic_renewal self nt padding kw = inr bm /\
      HospitalAdmissionsModel.latent_hosp_admissions_rv self
        (basic_latent_infections bm) kw
        (tr ++ [RenewalSampleCall nt padding]) = (inr hosp, tr1) /\
      hm_infection_hosp_rate s = infection_hosp_rate hosp /\
      latent_hosp_admissions s = latent_hospital_admissions hosp /\
      latent_hosp_admissions s = Some (Array lat).
Proof.
  intros self n data padding kw tr s tr' Hrun.
  apply model_sample_inv in Hrun
    as (nt & bm & hosp & lat & tr1 & Hnt & Hbm & Hhosp & Hlat & _ & _
        & Hrate & Hadm & _).
  exists nt, bm, hosp, lat, tr1. repeat split; try assumption.
  - destruct Hnt as [[-> ->] | [-> (d & -> & ->)]]; reflexivity.
  - rewrite Hadm. exact Hlat.
Qed.

Lemma sample_passes_latent_through_witness :
  exists s tr' lat,
    HospitalAdmissionsModel.sample (example_model 2 true) None
      (Some [Fin 4; Fin 5; Fin 6]%Q) 1 [] [] = (inr s, tr') /\
    latent_hosp_admissions s = Some (Array lat) /\
    hm_infection_hosp_rate s = Some (Scalar (1#10)).
Proof.
  eexists. eexists.
  destruct (sample_passes_latent_through (example_model 2 true) None
              (Some [Fin 4; Fin 5; Fin 6]%Q) 1%Z [] [] _ _ eq_refl)
    as (nt & bm & hosp & lat & tr1 & _ & _ & _ & _ & _ & Hlat).
  exists lat. split; [lazy; reflexivity |]. split; [exact Hlat | reflexivity].
Defined.

(** X16.  The data only reach the observation process: two fit-mode calls
    with data of one length that both return agree on [Rt],
    [latent_infections], [infection_hosp_rate] and [latent_hosp_admissions],
    whatever the observed values are. *)
Theorem sample_latent_independent_of_data :
  forall self data1 data2 padding kw tr s1 s2 tr1' tr2',
    length data1 = length data2 ->
    HospitalAdmissionsModel.sample self None (Some data1) padding kw tr
    = (inr s1, tr1') ->
    HospitalAdmissionsModel.sample self None (Some data2) padding kw tr
    = (inr s2, tr2') ->
    Rt s1 = Rt s2 /\
    latent_infections s1 = latent_infections s2 /\
    hm_infection_hosp_rate s1 = hm_infection_hosp_rate s2 /\
    latent_hosp_admissions s1 = latent_hosp_admissions s2.
Proof.
  intros self data1 data2 padding kw tr s1 s2 tr1' tr2' Hlen Hrun1 Hrun2.
  apply model_sample_inv in Hrun1
    as (nt1 & bm1 & hosp1 & lat1 & t1 & Hnt1 & Hbm1 & Hhosp1 & _ & HRt1 & Hli1
        & Hrate1 & Hadm1 & _).
  apply model_sample_inv in Hrun2
    as (nt2 & bm2 & hosp2 & lat2 & t2 & Hnt2 & Hbm2 & Hhosp2 & _ & HRt2 & Hli2
        & Hrate2 & Hadm2 & _).
  destruct Hnt1 as [[H _] | [_ (d1 & Hd1 & ->)]]; [discriminate |].
  destruct Hnt2 as [[H _] | [_ (d2 & Hd2 & ->)]]; [discriminate |].
  inversion Hd1; inversion Hd2; subst d1 d2.
  rewrite <- Hlen in Hbm2, Hhosp2.
  rewrite Hbm1 in Hbm2. inversion Hbm2; subst bm2.
  rewrite Hhosp1 in Hhosp2. inversion Hhosp2; subst hosp2.
  repeat split; congruence.
Qed.

Lemma sample_latent_independent_of_data_witness :
  exists s1 s2 tr1' tr2',
    HospitalAdmissionsModel.sample (example_model 2 true) None
      (Some [Fin 4; Fin 5; Fin 6]%Q) 1 [] [] = (inr s1, tr1') /\
    HospitalAdmissionsModel.sample (example_model 2 true) None
      (Some [NaN; Fin 0; Fin 9]%Q) 1 [] [] = (inr s2, tr2') /\
    latent_hosp_admissions s1 = latent_hosp_admissions s2 /\
    observed_hosp_admissions s1 <> observed_hosp_admissions s2.
Proof.
  eexists. eexists. eexists. eexists.
  destruct (sample_latent_independent_of_data (example_model 2 true)
              [Fin 4; Fin 5; Fin 6]%Q [NaN; Fin 0; Fin 9]%Q 1%Z [] []
              _ _ _ _ eq_refl eq_refl eq_refl)
    as (_ & _ & _ & Hadm).
  split; [lazy; reflexivity |]. split; [lazy; reflexivity |].
  split; [exact Hadm | discriminate].
Defined.

(** X17.  Without observation process the data count only by their length:
    a fit-mode call returns and logs exactly what the simulate-mode call for
    [len(data)] time points does. *)
Theorem sample_fit_without_obs_process :
  forall self data padding kw tr,
    HospitalAdmissionsModel.hosp_admission_obs_process_rv self = None ->
    HospitalAdmissionsModel.sample self None (Some data) padding kw tr
    = HospitalAdmissionsModel.sample self (Some (Z.of_nat (length data))) None
                                     padding kw tr.
Proof.
  intros self data padding kw tr Hnone.
  unfold HospitalAdmissionsModel.sample. rewrite Hnone. reflexivity.
Qed.

Lemma sample_fit_without_obs_process_witness :
  HospitalAdmissionsModel.sample (example_model 2 false) None
    (Some [Fin 4; NaN; Fin 6]%Q) 1 [] []
  = HospitalAdmissionsModel.sample (example_model 2 false) (Some 3%Z) None
                                   1 [] [].
Proof.
  exact (sample_fit_without_obs_process (example_model 2 false)
           [Fin 4; NaN; Fin 6]%Q 1%Z [] [] eq_refl).
Defined.

(** X18.  The two components composed, in simulate mode.  For a model whose
    latent component is a [HospitalAdmissions] object and which has an
    observation process, a returning call has run, in this order, the renewal
    model, the rate, delay, weekday and reporting processes, the
    registration with [numpyro.deterministic] and the observation process;
    the series registered, the series returned as [latent_hosp_admissions]
    and the mean handed to the observation process are one and the same. *)
Theorem sample_end_to_end :
  forall self comp obs_process n padding kw tr s tr',
    HospitalAdmissionsModel.latent_hosp_admissions_rv self
    = HospitalAdmissions.sample comp ->
    HospitalAdmissionsModel.hosp_admission_obs_process_rv self
    = Some obs_process ->
    HospitalAdmissionsModel.sample self (Some n) None padding kw tr
    = (inr s, tr') ->
    exists bm adm o,
      HospitalAdmissionsModel.basic_renewal self n padding kw = inr bm /\
      latent_hosp_admissions s = Some (Array adm) /\
      obs_process adm None kw = inr o /\
      observed_hosp_admissions s = Some o /\
      tr' = tr ++ [RenewalSampleCall n padding] ++ sample_calls
               ++ [Deterministic
                     (HospitalAdmissions.latent_hospital_admissions_varname
                        comp) (Array adm);
                   ObsProcessCall adm None].
Proof.
  intros self comp obs_process n padding kw tr s tr' Hcomp Hobs Hrun.
  pose proof Hrun as Hinv.
  apply model_sample_inv in Hinv
    as (nt & bm & hosp & lat & tr1 & Hnt & Hbm & Hhosp & Hlat & _).
  destruct Hnt as [[Hn _] | [Hn _]]; [| discriminate].
  inversion Hn; subst nt.
  rewrite (model_sample_simulate _ _ _ _ _ _ _ _ _ _ Hobs Hbm Hhosp Hlat)
    in Hrun.
  rewrite Hcomp in Hhosp.
  apply sample_inv_log in Hhosp as (r & adm0 & _ & -> & ->).
  simpl in Hlat. inversion Hlat; subst adm0.
  destruct (obs_process lat None kw) as [e | o] eqn:Ho; [discriminate |].
  inversion Hrun; subst s tr'.
  exists bm, lat, o. repeat split; try assumption.
  unfold sample_events, sample_calls. simpl.
  rewrite <- !app_assoc. reflexivity.
Qed.

Lemma sample_end_to_end_witness :
  exists bm adm o,
    HospitalAdmissionsModel.basic_renewal (example_model 1 true) 2 0 []
    = inr bm /\
    length adm = 3 /\
    o = map Fin adm /\
    snd (HospitalAdmissionsModel.sample (example_model 1 true) (Some 2%Z)
           None 0 [] [])
    = [] ++ [RenewalSampleCall 2 0] ++ sample_calls
         ++ [Deterministic HospitalAdmissions.default_varname (Array adm);
             ObsProcessCall adm None].
Proof.
  destruct (sample_end_to_end (example_model 1 true) example_latent _
              2%Z 0%Z [] [] _ _ eq_refl eq_refl eq_refl)
    as (bm & adm & o & Hbm & Hadm & Ho & _ & Htr).
  exists bm, adm, o. simpl in Hadm. injection Hadm as <-.
  split; [exact Hbm |]. split; [reflexivity |].
  split; [simpl in Ho; injection Ho as <-; reflexivity | exact Htr].
Defined.

(** ** The texts of the result containers *)

Lemma paren_balance_append s1 s2 :
  paren_balance (s1 ++ s2)%string
  = (paren_balance s1 + paren_balance s2)%Z.
Proof.
  induction s1 as [| c s1 IH]; simpl.
  - reflexivity.
  - rewrite IH. lia.
Qed.

(** X19.  The text of a [HospModelSample] is not closed: it has one more
    opening than closing round bracket, beyond what the texts of its fields
    contribute, because nothing follows the last field.  The text of a
    [HospitalAdmissionsSample] is balanced. *)
Theorem repr_parentheses :
  forall fmt fmt_obs (s : HospModelSample) (h : HospitalAdmissionsSample),
    paren_balance (HospModelSample_repr fmt fmt_obs s)
    = (1 + (paren_balance (fmt (Rt s))
            + paren_balance (fmt (latent_infections s))
            + paren_balance (fmt (hm_infection_hosp_rate s))
            + paren_balance (fmt (latent_hosp_admissions s))
            + paren_balance (fmt_obs (observed_hosp_admissions s))))%Z /\
    paren_balance (HospitalAdmissionsSample_repr fmt h)
    = (paren_balance (fmt (infection_hosp_rate h))
       + paren_balance (fmt (latent_hospital_admissions h)))%Z.
Proof.
  intros fmt fmt_obs s h.
  unfold HospModelSample_repr, HospitalAdmissionsSample_repr.
  rewrite !paren_balance_append.
  cbv [paren_balance Ascii.eqb Bool.eqb]. split; lia.
Qed.

(** * Further properties of [HospitalAdmissions.sample] *)

(** ** A weekday effect of another length *)

Lemma multiply_broadcasts a xs :
  same_shape a (Array xs) \/ unit_shape a ->
  exists ts, Numpy.multiply a (Array xs) = inr (Array ts) /\
             length ts = length xs.
Proof.
  destruct a as [q | zs]; simpl.
  - intros _. eexists. split; [reflexivity | apply length_map].
  - intros [Heq | Hunit].
    + rewrite Heq, Nat.eqb_refl. eexists. split; [reflexivity |].
      rewrite length_map2. lia.
    + destruct zs as [| z [| z' zs]]; try discriminate.
      destruct (length [z] =? length xs) eqn:E.
      * eexists. split; [reflexivity |]. apply Nat.eqb_eq in E.
        rewrite length_map2. lia.
      * eexists. split; [reflexivity | apply length_map].
Qed.

Lemma multiply_mismatch xs ys :
  length xs <> length ys -> length xs <> 1 -> length ys <> 1 ->
  Numpy.multiply (Array xs) (Array ys) = inl BroadcastError.
Proof.
  intros Hne Hx Hy. simpl.
  destruct (Nat.eqb_spec (length xs) (length ys)); [contradiction |].
  destruct xs as [| x [| x' xs]]; simpl in Hx; try lia;
    destruct ys as [| y [| y' ys]]; simpl in Hy; try lia; reflexivity.
Qed.

(** X20.  A weekday effect is not cycled over the series.  When the weekday
    process samples an array whose length is neither 1 nor the length of the
    infection series (of two or more entries; rate a scalar, a one-entry
    array or of the series' length; delay a non-empty array), [sample]
    raises the broadcasting error, after the first three collaborator calls
    and without registering anything. *)
Theorem sample_weekday_not_cycled :
  forall self li kw tr r d ws,
    sampled (HospitalAdmissions.infect_hosp_rate_rv self) kw = inr r ->
    sampled (HospitalAdmissions.infection_to_admission_interval_rv self) kw
    = inr (Array d) ->
    sampled (HospitalAdmissions.day_of_week_effect_rv self) kw
    = inr (Array ws) ->
    same_shape r (Array li) \/ unit_shape r ->
    d <> [] ->
    2 <= length li ->
    length ws <> 1 -> length ws <> length li ->
    HospitalAdmissions.sample self (Array li) kw tr
    = (inl BroadcastError, tr ++ firstn 3 sample_calls).
Proof.
  intros self li kw tr r d ws Hr Hd Hw Hshape Hdne Hlen Hws1 Hwsn.
  destruct (multiply_broadcasts r li Hshape) as (ts & Ht & Hlen_t).
  assert (Hts : ts <> []) by (intros ->; simpl in Hlen_t; lia).
  unfold HospitalAdmissions.sample.
  rewrite (bind_run _ _ _ _ _ (call_sample_run _ _ _ _ _ Hr)).
  rewrite (bind_lift_run _ _ _ _ Ht).
  rewrite (bind_run _ _ _ _ _ (call_sample_run _ _ _ _ _ Hd)).
  rewrite (bind_lift_run _ _ _ _ (convolve_run _ _ Hts Hdne)).
  rewrite (bind_lift_run (Numpy.shape0 (Array ts)) _ _ (length ts) eq_refl).
  rewrite (bind_lift_run
             (Numpy.take (length ts) (Array (Numpy.conv_full ts d))) _ _
             (Array (firstn (length ts) (Numpy.conv_full ts d))) eq_refl).
  rewrite (bind_run _ _ _ _ _ (call_sample_run _ _ _ _ _ Hw)).
  rewrite multiply_mismatch.
  - unfold bind, lift. simpl. rewrite <- !app_assoc. reflexivity.
  - rewrite length_firstn_conv_full by exact Hdne. lia.
  - rewrite length_firstn_conv_full by exact Hdne. lia.
  - exact Hws1.
Qed.

Lemma sample_weekday_not_cycled_witness :
  HospitalAdmissions.sample
    {| HospitalAdmissions.latent_hospital_admissions_varname :=
         HospitalAdmissions.default_varname;
       HospitalAdmissions.infect_hosp_rate_rv := const_rv (Scalar (1#10));
       HospitalAdmissions.day_of_week_effect_rv :=
         const_rv (Array [1; 1; 1; 1; 1; 1; 1]%Q);
       HospitalAdmissions.hosp_report_prob_rv := const_rv (Scalar 1);
       HospitalAdmissions.infection_to_admission_interval_rv :=
         const_rv (Array [1#2; 1#2]%Q) |}
    (Array (repeat 100%Q 14)) [] []
  = (inl BroadcastError, [] ++ firstn 3 sample_calls).
Proof.
  apply (sample_weekday_not_cycled _ (repeat 100%Q 14) [] []
           (Scalar (1#10)) [1#2; 1#2]%Q [1; 1; 1; 1; 1; 1; 1]%Q);
    try reflexivity; simpl; try lia; try discriminate.
Defined.

(** ** Total mass *)











